(** * PagerDuty failure-rate alerting: a shallow embedding

    Source: [litellm/integrations/pagerduty/pagerduty.py], class
    [PagerDutyAlerting]; and, further down, the response transformation of
    [litellm/llms/infinity/rerank/transformation.py].

    Conventions of the embedding.
    - A [datetime] is an integer number of microseconds since
      1970-01-01T00:00:00 UTC (the resolution of Python's [datetime]), and a
      [timedelta] a number of microseconds.  Both types are finite in
      Python: [timedelta(seconds=n)] and the subtraction of a [timedelta]
      from a [datetime] raise [OverflowError] outside their ranges, and so
      do they here.
    - The engine object [self] and the requests handed to the HTTP client
      form the [World].  A method is a function from the world to a
      [Result] and a new world: what a method assigned before it raised
      stays assigned, as in Python.
    - The clock ([datetime.now]), the process environment ([os.getenv]), the
      HTTP client ([AsyncHTTPHandler.post]) and the inherited initialiser
      ([SlackAlerting.__init__]) are not part of the class; their answers
      are arguments of the methods that consult them.
    - One [await] is one sequential step: calls do not interleave. *)

From Stdlib Require Import ZArith List String Bool Lia DecimalString Sorted.
From ExtLib Require Import Structures.Monad Structures.MonadState Structures.MonadExc.
From ExtLib Require Import Data.Monads.EitherMonad.
Import ListNotations.
Import MonadNotation.
Local Open Scope bool_scope.
Local Open Scope string_scope.
Local Open Scope Z_scope.
Local Open Scope monad_scope.

(** ** Python values used by the class *)

Module Py.

(** An exception object: its class name and its message. *)
Record Exn := mkExn { exn_class : string; exn_message : string }.

Definition ValueError (msg : string) : Exn := mkExn "ValueError" msg.

Definition OverflowError (msg : string) : Exn := mkExn "OverflowError" msg.

(** Outcome of a call: it returned a value or raised. *)
Inductive Result (A : Type) : Type :=
| Returned (a : A)
| Raised (e : Exn).
Arguments Returned {A} a.
Arguments Raised {A} e.

(** Truth value of an [Optional[str]]: [None] and [""] are falsy. *)
Definition truthy (o : option string) : bool :=
  match o with
  | Some s => negb (String.eqb s "")
  | None => false
  end.

(** [o or d] for an [Optional[str]] [o] and a string [d]. *)
Definition or_str (o : option string) (d : string) : string :=
  match o with
  | Some s => if truthy o then s else d
  | None => d
  end.

(** [str(n)] for an [int], as an f-string renders it. *)
Definition str_int (n : Z) : string := NilZero.string_of_int (Z.to_int n).

(** [l[start:]]: a negative [start] counts from the end, and the bounds
    are clamped to the list. *)
Definition slice_from {A : Type} (start : Z) (l : list A) : list A :=
  let n := Z.of_nat (List.length l) in
  let i := if start <? 0 then Z.max (start + n) 0 else Z.min start n in
  skipn (Z.to_nat i) l.

(** JSON-like values: strings, lists, and dicts in insertion order. *)
#[warnings="-register-all"] Inductive Value : Type :=
| VStr (s : string)
| VList (items : list Value)
| VDict (entries : list (string * Value)).

End Py.
Import Py.

(** ** Data model *)

(** Microseconds since 1970-01-01T00:00:00 UTC. *)
Definition datetime : Type := Z.
Definition timedelta : Type := Z.

(** [datetime.min] is 0001-01-01T00:00:00, 719162 days before 1970, and
    [datetime.max] is 9999-12-31T23:59:59.999999, the last microsecond of
    the 2932897 days from 1970 on. *)
Definition datetime_min : datetime := -719162 * 86400000000.
Definition datetime_max : datetime := 2932897 * 86400000000 - 1.

Definition is_datetime (t : Z) : bool :=
  (datetime_min <=? t) && (t <=? datetime_max).

(** [timedelta(seconds=n)] for an [int] [n]: the seconds are normalised
    into days ([n // 86400]) and a rest, and a [timedelta] holds at most
    999999999 days either way.  The messages of the two [OverflowError]s
    are those of CPython. *)
Definition timedelta_seconds (seconds : Z) : Result timedelta :=
  let days := seconds / 86400 in
  if (-999999999 <=? days) && (days <=? 999999999) then
    Returned (seconds * 1000000)
  else
    Raised (OverflowError
              ("days=" ++ str_int days ++ "; must have magnitude <= 999999999")).

(** [d - delta] for a [datetime] and a [timedelta]: the result must be a
    [datetime]. *)
Definition datetime_sub (d : datetime) (delta : timedelta) : Result datetime :=
  let result := d - delta in
  if is_datetime result then Returned result
  else Raised (OverflowError "date value out of range").

(** The parts of the standard logging object the class reads.  The names
    are the dict keys; [None] stands for a key that is absent or maps to
    [None] (what [dict.get] returns in both cases). *)
Module Logging.

Record ErrorInformation := {
  error_code : option string;
  error_class : option string;
  llm_provider : option string
}.

Record Metadata := {
  user_api_key_hash : option string;
  user_api_key_alias : option string;
  user_api_key_org_id : option string;
  user_api_key_team_id : option string;
  user_api_key_user_id : option string;
  user_api_key_team_alias : option string;
  user_api_key_end_user_id : option string
}.

Record StandardLoggingPayload := {
  metadata : option Metadata;
  error_information : option ErrorInformation
}.

(** The empty dict [{}]: every [get] answers [None]. *)
Definition no_error_information : ErrorInformation :=
  {| error_code := None; error_class := None; llm_provider := None |}.

Definition no_metadata : Metadata :=
  {| user_api_key_hash := None; user_api_key_alias := None;
     user_api_key_org_id := None; user_api_key_team_id := None;
     user_api_key_user_id := None; user_api_key_team_alias := None;
     user_api_key_end_user_id := None |}.

(** The keyword arguments of the failure hook ([kwargs]); only
    ["standard_logging_object"] is read. *)
Record Kwargs := { standard_logging_object : option StandardLoggingPayload }.

End Logging.

(** [FailureEvent], as built at pagerduty.py:61-75: a [datetime] and ten
    [Optional[str]] fields. *)
Record FailureEvent := {
  timestamp : datetime;
  error_class : option string;
  error_code : option string;
  error_llm_provider : option string;
  user_api_key_hash : option string;
  user_api_key_alias : option string;
  user_api_key_org_id : option string;
  user_api_key_team_id : option string;
  user_api_key_user_id : option string;
  user_api_key_team_alias : option string;
  user_api_key_end_user_id : option string
}.

(** [AlertingConfig]: both keys may be missing from the dict. *)
Record AlertingConfig := {
  failure_threshold : option Z;
  failure_threshold_window_seconds : option Z
}.

(** [d.get(key, default)]. *)
Definition get_default {A : Type} (entry : option A) (default : A) : A :=
  match entry with
  | Some v => v
  | None => default
  end.

(** The attributes of a [PagerDutyAlerting] instance. *)
Record PagerDutyAlerting := {
  api_key : string;
  alerting_config : AlertingConfig;
  _failure_events : list FailureEvent
}.

(** A request handed to [AsyncHTTPHandler.post]. *)
Record HttpPost := {
  url : string;
  json : Value;
  headers : list (string * string)
}.

Record Response := { status_code : Z }.

(** What the HTTP client answers to a request: a response, or an
    exception. *)
Definition AsyncHTTPHandler : Type := HttpPost -> Result Response.

(** ** Methods as state transformers *)

Record World := {
  self : PagerDutyAlerting;
  posted : list HttpPost
}.

Definition Method (A : Type) : Type := World -> Result A * World.

#[export] Instance Monad_Method : Monad Method := {
  ret := fun _ a w => (Returned a, w);
  bind := fun _ _ c k w =>
    match c w with
    | (Returned a, w') => k a w'
    | (Raised e, w') => (Raised e, w')
    end
}.

#[export] Instance Exc_Method : MonadExc Exn Method := {
  raise := fun _ e w => (Raised e, w);
  catch := fun _ c h w =>
    match c w with
    | (Returned a, w') => (Returned a, w')
    | (Raised e, w') => h e w'
    end
}.

#[export] Instance State_Method : MonadState World Method := {
  get := fun w => (Returned w, w);
  put := fun w _ => (Returned tt, w)
}.

(** Reading and assigning [self._failure_events]. *)
Definition get_failure_events : Method (list FailureEvent) :=
  w <- get ;; ret (_failure_events (self w)).

Definition with_failure_events (w : World) (events : list FailureEvent)
  : World :=
  {| self := {| api_key := api_key (self w);
                alerting_config := alerting_config (self w);
                _failure_events := events |};
     posted := posted w |}.

Definition set_failure_events (events : list FailureEvent) : Method unit :=
  w <- get ;; put (with_failure_events w events).

Definition with_posted (w : World) (requests : list HttpPost) : World :=
  {| self := self w; posted := requests |}.

(** The outcome of a computation that does not touch the world. *)
Definition outcome {A : Type} (r : Result A) : Method A := fun w => (r, w).

(** [await async_client.post(...)]: the request goes out, and the client's
    answer is the outcome of the call. *)
Definition post (async_client : AsyncHTTPHandler) (request : HttpPost)
  : Method Response :=
  w <- get ;;
  put (with_posted w (posted w ++ [request])) ;;
  match async_client request with
  | Returned response => ret response
  | Raised e => raise e
  end.

(** ** The class *)

(** [__init__] (pagerduty.py:27-37).  [getenv] is [os.getenv]; [super_init]
    is the outcome of the call to the inherited initialiser at line 37. *)
Definition __init__ (getenv : string -> option string)
  (alerting_config : AlertingConfig) (super_init : Result unit)
  : Result PagerDutyAlerting :=
  match getenv "PAGERDUTY_API_KEY" with
  | None => Raised (ValueError "PAGERDUTY_API_KEY is not set")
  | Some _api_key =>
      if negb (truthy (Some _api_key)) then
        Raised (ValueError "PAGERDUTY_API_KEY is not set")
      else
        let this := {| api_key := _api_key;
                       alerting_config := alerting_config;
                       _failure_events := [] |} in
        match super_init with
        | Returned _ => Returned this
        | Raised e => Raised e
        end
  end.

(** The [for] loop of [_prune_failure_events] (pagerduty.py:164-167):
    [events] is what is left to visit, [_failure_events] the local list
    being built.  A [datetime] is always truthy, so the test
    [_timestamp and _timestamp > cutoff] is the comparison. *)
Fixpoint prune_loop (cutoff : datetime) (events : list FailureEvent)
  (_failure_events : list FailureEvent) : list FailureEvent :=
  match events with
  | [] => _failure_events
  | fe :: rest =>
      let _timestamp := timestamp fe in
      if cutoff <? _timestamp then
        prune_loop cutoff rest (_failure_events ++ [fe])
      else
        prune_loop cutoff rest _failure_events
  end.

(** [_prune_failure_events] (pagerduty.py:161-168). *)
Definition _prune_failure_events (cutoff : datetime) : Method unit :=
  events <- get_failure_events ;;
  set_failure_events (prune_loop cutoff events []).

(** One line of the digest (pagerduty.py:180-186). *)
Definition summary_line (fe : FailureEvent) : string :=
  let error_class := or_str (error_class fe) "N/A" in
  let error_code := or_str (error_code fe) "N/A" in
  let error_llm_provider := or_str (error_llm_provider fe) "N/A" in
  error_class ++ " (code: " ++ error_code ++ ", provider: "
    ++ error_llm_provider ++ ")".

(** The [for] loop of [_build_error_summaries] (pagerduty.py:178-186). *)
Fixpoint summaries_loop (recent_events : list FailureEvent)
  (summaries : list string) : list string :=
  match recent_events with
  | [] => summaries
  | fe :: rest => summaries_loop rest (summaries ++ [summary_line fe])
  end.

(** [_build_error_summaries] (pagerduty.py:170-187). *)
Definition _build_error_summaries (max_errors : Z) : Method (list string) :=
  events <- get_failure_events ;;
  let recent_events := slice_from (- max_errors) events in
  ret (summaries_loop recent_events []).

(** The request body built at pagerduty.py:141-151. *)
Definition PagerDutyRequestBody (routing_key alert_message : string)
  (custom_details : Value) : Value :=
  VDict [("payload",
          VDict [("summary", VStr alert_message);
                 ("severity", VStr "critical");
                 ("source", VStr "LiteLLM Alert");
                 ("component", VStr "LiteLLM");
                 ("custom_details", custom_details)]);
         ("routing_key", VStr routing_key);
         ("event_action", VStr "trigger")].

(** [send_alert_to_pagerduty] (pagerduty.py:130-157); [async_client] is
    what [get_async_httpx_client] hands back. *)
Definition send_alert_to_pagerduty (async_client : AsyncHTTPHandler)
  (alert_message : string) (custom_details : Value) : Method Response :=
  w <- get ;;
  let payload :=
    PagerDutyRequestBody (api_key (self w)) alert_message custom_details in
  post async_client
    {| url := "https://events.pagerduty.com/v2/enqueue";
       json := payload;
       headers := [("Content-Type", "application/json")] |}.

(** The event built at pagerduty.py:54-76 from the logging payload. *)
Definition new_failure_event (now : datetime)
  (standard_logging_payload : Logging.StandardLoggingPayload) : FailureEvent :=
  let _event_metadata :=
    get_default (Logging.metadata standard_logging_payload)
      Logging.no_metadata in
  let error_info :=
    get_default (Logging.error_information standard_logging_payload)
      Logging.no_error_information in
  {| timestamp := now;
     error_class := Logging.error_class error_info;
     error_code := Logging.error_code error_info;
     error_llm_provider := Logging.llm_provider error_info;
     user_api_key_hash := Logging.user_api_key_hash _event_metadata;
     user_api_key_alias := Logging.user_api_key_alias _event_metadata;
     user_api_key_org_id := Logging.user_api_key_org_id _event_metadata;
     user_api_key_team_id := Logging.user_api_key_team_id _event_metadata;
     user_api_key_user_id := Logging.user_api_key_user_id _event_metadata;
     user_api_key_team_alias :=
       Logging.user_api_key_team_alias _event_metadata;
     user_api_key_end_user_id :=
       Logging.user_api_key_end_user_id _event_metadata |}.

(** The configured window and threshold with their defaults
    (pagerduty.py:79-82). *)
Definition window_seconds_of (config : AlertingConfig) : Z :=
  get_default (failure_threshold_window_seconds config) 60.

Definition threshold_of (config : AlertingConfig) : Z :=
  get_default (failure_threshold config) 1.

(** First half of [async_log_failure_event] (pagerduty.py:44-84): check the
    payload, append the event, compute the cutoff, prune.  It hands
    [window_seconds] and [threshold] to the second half.  The cutoff of
    line 83 is [now - timedelta(seconds=window_seconds)]: either step may
    raise [OverflowError], and then the event is appended and nothing is
    pruned. *)
Definition record_and_prune (now : datetime) (kwargs : Logging.Kwargs)
  : Method (Z * Z) :=
  match Logging.standard_logging_object kwargs with
  | None =>
      raise (ValueError "standard_logging_object is required for PagerDutyAlerting")
  | Some standard_logging_payload =>
      events <- get_failure_events ;;
      set_failure_events
        (events ++ [new_failure_event now standard_logging_payload]) ;;
      w <- get ;;
      let window_seconds := window_seconds_of (alerting_config (self w)) in
      let threshold := threshold_of (alerting_config (self w)) in
      delta <- outcome (timedelta_seconds window_seconds) ;;
      cutoff <- outcome (datetime_sub now delta) ;;
      _prune_failure_events cutoff ;;
      ret (window_seconds, threshold)
  end.

(** Second half of [async_log_failure_event] (pagerduty.py:86-104): the
    threshold test, the alert, the clear. *)
Definition alert_if_crossed (async_client : AsyncHTTPHandler)
  (window_seconds threshold : Z) : Method unit :=
  events <- get_failure_events ;;
  if threshold <=? Z.of_nat (List.length events) then
    error_summaries <- _build_error_summaries 5 ;;
    events <- get_failure_events ;;
    let alert_message :=
      "High LLM API Failure Rate: "
        ++ str_int (Z.of_nat (List.length events)) ++ " failures "
        ++ "in the last " ++ str_int window_seconds ++ " seconds." in
    let custom_details :=
      VDict [("recent_errors", VList (map VStr error_summaries))] in
    send_alert_to_pagerduty async_client alert_message custom_details ;;
    set_failure_events []
  else
    ret tt.

(** [async_log_failure_event] (pagerduty.py:39-104).  [now] is the reading
    of the clock at line 44; [response_obj], [start_time] and [end_time]
    are not used by the method. *)
Definition async_log_failure_event (async_client : AsyncHTTPHandler)
  (now : datetime) (kwargs : Logging.Kwargs) : Method unit :=
  '(window_seconds, threshold) <- record_and_prune now kwargs ;;
  alert_if_crossed async_client window_seconds threshold.

(** A sequence of failure notifications: each comes with the clock reading
    and the behaviour of the HTTP client at that moment.  An exception of
    one call goes to its caller; the engine lives on. *)
Record Call := {
  call_client : AsyncHTTPHandler;
  call_now : datetime;
  call_kwargs : Logging.Kwargs
}.

Definition ingest (c : Call) (w : World) : World :=
  snd (async_log_failure_event (call_client c) (call_now c) (call_kwargs c) w).

Fixpoint ingest_all (calls : list Call) (w : World) : World :=
  match calls with
  | [] => w
  | c :: rest => ingest_all rest (ingest c w)
  end.

(** ** Vocabulary of the statements *)

Definition events_of (w : World) : list FailureEvent :=
  _failure_events (self w).

(** The event is strictly younger than the cutoff. *)
Definition newer_than (cutoff : datetime) (fe : FailureEvent) : bool :=
  cutoff <? timestamp fe.

(** The instant [window_seconds] before [now]. *)
Definition cutoff_at (now : datetime) (w : World) : datetime :=
  now - window_seconds_of (alerting_config (self w)) * 1000000.

(** Line 83 for an ingestion at [now], and whether it returns: the window
    is a [timedelta] and the cutoff a [datetime]. *)
Definition cutoff_of (now : datetime) (w : World) : Result datetime :=
  match timedelta_seconds (window_seconds_of (alerting_config (self w))) with
  | Returned delta => datetime_sub now delta
  | Raised e => Raised e
  end.

Definition cutoff_in_range (now : datetime) (w : World) : bool :=
  match cutoff_of now w with
  | Returned _ => true
  | Raised _ => false
  end.

(** [survivors] is [original] with some elements dropped, nothing moved. *)
Inductive InOrderWithin {A : Type} : list A -> list A -> Prop :=
| within_nil : InOrderWithin [] []
| within_keep x survivors original :
    InOrderWithin survivors original ->
    InOrderWithin (x :: survivors) (x :: original)
| within_drop x survivors original :
    InOrderWithin survivors original ->
    InOrderWithin survivors (x :: original).

(** The store on which the threshold test of an ingestion runs, and
    whether the test passes. *)
Definition store_at_test (c : Call) (w : World) : list FailureEvent :=
  events_of (snd (record_and_prune (call_now c) (call_kwargs c) w)).

Definition crossed (c : Call) (w : World) : bool :=
  match fst (record_and_prune (call_now c) (call_kwargs c) w) with
  | Returned (_, threshold) =>
      threshold <=? Z.of_nat (List.length (store_at_test c w))
  | Raised _ => false
  end.

(** Number of ingestions of a sequence whose threshold test passes. *)
Fixpoint crossings (calls : list Call) (w : World) : nat :=
  match calls with
  | [] => 0%nat
  | c :: rest =>
      ((if crossed c w then 1 else 0) + crossings rest (ingest c w))%nat
  end.

Definition call (client : AsyncHTTPHandler) (now : datetime)
  (p : Logging.StandardLoggingPayload) : Call :=
  {| call_client := client; call_now := now;
     call_kwargs := {| Logging.standard_logging_object := Some p |} |}.

(** The text of the alert (pagerduty.py:89-92). *)
Definition alert_message (count : nat) (window_seconds : Z) : string :=
  "High LLM API Failure Rate: " ++ str_int (Z.of_nat count)
    ++ " failures in the last " ++ str_int window_seconds ++ " seconds.".

(** The request of the outbound interface: endpoint, JSON object and
    header, for a routing key, a summary text and the digest lines. *)
Definition alert_request (routing_key summary_text : string)
  (recent_errors : list string) : HttpPost :=
  {| url := "https://events.pagerduty.com/v2/enqueue";
     json :=
       VDict [("payload",
               VDict [("summary", VStr summary_text);
                      ("severity", VStr "critical");
                      ("source", VStr "LiteLLM Alert");
                      ("component", VStr "LiteLLM");
                      ("custom_details",
                       VDict [("recent_errors",
                               VList (map VStr recent_errors))])]);
              ("routing_key", VStr routing_key);
              ("event_action", VStr "trigger")];
     headers := [("Content-Type", "application/json")] |}.

(** The alert an ingestion owes when its threshold test passes: the count
    and the window in the text, the lines of the last five events of the
    tested store as digest. *)
Definition alert_for (c : Call) (w : World) : HttpPost :=
  alert_request (api_key (self w))
    (alert_message (List.length (store_at_test c w))
       (window_seconds_of (alerting_config (self w))))
    (map summary_line (slice_from (-5) (store_at_test c w))).

(** A field of an event as a digest line shows it: never empty, the
    field's own text when it has one, the placeholder otherwise. *)
Definition shown_as (field : option string) (text : string) : Prop :=
  text <> ""
  /\ (forall s, field = Some s -> s <> "" -> text = s)
  /\ (field = None \/ field = Some "" -> text = "N/A").

(** The digest of a world stays within [max_errors] lines. *)
Definition summary_bounded (max_errors : Z) (w : World) : Prop :=
  forall lines,
    fst (_build_error_summaries max_errors w) = Returned lines ->
    Z.of_nat (List.length lines) <= max_errors.

(** ** Fixtures *)

Definition bare_payload : Logging.StandardLoggingPayload :=
  {| Logging.metadata := None; Logging.error_information := None |}.

Definition openai_500 : Logging.StandardLoggingPayload :=
  {| Logging.metadata := None;
     Logging.error_information :=
       Some {| Logging.error_code := Some "500";
               Logging.error_class := Some "ValueError";
               Logging.llm_provider := Some "openai" |} |}.

Definition kwargs_with (p : Logging.StandardLoggingPayload) : Logging.Kwargs :=
  {| Logging.standard_logging_object := Some p |}.

Definition kwargs_without : Logging.Kwargs :=
  {| Logging.standard_logging_object := None |}.

(** A client that answers 202 Accepted, and one whose request fails. *)
Definition accepting_client : AsyncHTTPHandler :=
  fun _ => Returned {| status_code := 202 |}.

Definition failing_client : AsyncHTTPHandler :=
  fun _ => Raised (mkExn "HTTPStatusError" "502 Bad Gateway").

Definition config (window threshold : Z) : AlertingConfig :=
  {| failure_threshold := Some threshold;
     failure_threshold_window_seconds := Some window |}.

Definition default_config : AlertingConfig :=
  {| failure_threshold := None; failure_threshold_window_seconds := None |}.

(** The world right after a successful construction. *)
Definition fresh_world (key : string) (cfg : AlertingConfig) : World :=
  {| self := {| api_key := key; alerting_config := cfg;
                _failure_events := [] |};
     posted := [] |}.

(** A store of one event, stamped at second 20. *)
Definition one_event_world : World :=
  with_failure_events (fresh_world "k" (config 60 3))
    [new_failure_event 20000000 bare_payload].

Definition at_second (client : AsyncHTTPHandler) (s : Z)
  (p : Logging.StandardLoggingPayload) : Call :=
  {| call_client := client; call_now := s * 1000000;
     call_kwargs := kwargs_with p |}.

(** Failures at 0 s, 10 s and 20 s. *)
Definition three_failures : list Call :=
  [at_second accepting_client 0 openai_500;
   at_second accepting_client 10 bare_payload;
   at_second accepting_client 20 openai_500].

(** A store of seven events stamped 1 to 7, the odd ones unclassified. *)
Definition seven_events : list FailureEvent :=
  map (fun s => new_failure_event s (if Z.odd s then bare_payload else openai_500))
    [1; 2; 3; 4; 5; 6; 7].

(** ** The Infinity rerank response

    Source: [litellm/llms/infinity/rerank/transformation.py], class
    [InfinityRerankConfig].  A parsed JSON body is a [Json] value; its
    numbers are integers (a body with a fractional number is outside this
    model).  [RerankBilledUnits], [RerankTokens], [RerankResponseMeta] and
    [RerankResponse] are declared in [litellm.types], which is not among
    the sources: they are operations of the class [RerankModels], and
    every statement holds whatever they do. *)

Module InfinityRerank.

#[warnings="-register-all"] Inductive Json : Type :=
| JNull
| JBool (b : bool)
| JInt (n : Z)
| JStr (s : string)
| JList (items : list Json)
| JDict (entries : list (string * Json)).

Inductive Error : Type :=
| InfinityError (message : string) (status_code : Z)
| ValueError (message : string)
| TypeError
| AttributeError
| OtherError (e : Exn).

(** Outcome of a call: [inl] is a raised exception, [inr] a returned
    value. *)
Definition Outcome : Type -> Type := sum Error.

(** The [httpx.Response]: [json] is [None] when [.json()] raises. *)
Record HttpxResponse := {
  text : string;
  status_code : Z;
  json : option Json
}.

Class RerankModels := {
  BilledUnits : Type;
  Tokens : Type;
  Meta : Type;
  Response : Type;
  (** [RerankBilledUnits], called with the entries as keyword arguments *)
  RerankBilledUnits : list (string * Json) -> Outcome BilledUnits;
  (** [RerankTokens(input_tokens=.., output_tokens=..)] *)
  RerankTokens : Json -> Json -> Outcome Tokens;
  (** [RerankResponseMeta(billed_units=.., tokens=..)] *)
  RerankResponseMeta : BilledUnits -> Tokens -> Outcome Meta;
  (** [RerankResponse(id=.., results=.., meta=..)] *)
  RerankResponse : Json -> Json -> Meta -> Outcome Response;
  (** [repr] of a parsed body, as an f-string renders it *)
  repr : Json -> string
}.

(** Lookup in a parsed dict (each key occurs once). *)
Fixpoint lookup (key : string) (entries : list (string * Json))
  : option Json :=
  match entries with
  | [] => None
  | (k, v) :: rest => if String.eqb k key then Some v else lookup key rest
  end.

(** [obj.get(key, default)]: only a dict has [get]. *)
Definition dict_get (obj : Json) (key : string) (default : Json)
  : Outcome Json :=
  match obj with
  | JDict entries => ret (get_default (lookup key entries) default)
  | _ => raise AttributeError
  end.

(** [**obj] in a call: [obj] must be a mapping. *)
Definition keyword_arguments (obj : Json) : Outcome (list (string * Json)) :=
  match obj with
  | JDict entries => ret entries
  | _ => raise TypeError
  end.

(** The integer an operand of [-] stands for; [True] is 1 and [False]
    is 0, anything but a number has none. *)
Definition as_int (v : Json) : option Z :=
  match v with
  | JInt n => Some n
  | JBool b => Some (if b then 1 else 0)
  | _ => None
  end.

(** [a - b]. *)
Definition subtract (a b : Json) : Outcome Json :=
  match as_int a, as_int b with
  | Some x, Some y => ret (JInt (x - y))
  | _, _ => raise TypeError
  end.

(** Truth value of a parsed JSON value. *)
Definition truthy (v : Json) : bool :=
  match v with
  | JNull => false
  | JBool b => b
  | JInt n => negb (n =? 0)
  | JStr s => negb (String.eqb s "")
  | JList items => match items with [] => false | _ => true end
  | JDict entries => match entries with [] => false | _ => true end
  end.

(** [a or b]. *)
Definition or_else (a b : Json) : Json := if truthy a then a else b.

(** [transform_rerank_response] (transformation.py:21-64).  [uuid4] is
    the string [str(uuid.uuid4())] would give; the other arguments of the
    method are not used. *)
Definition transform_rerank_response {models : RerankModels}
  (raw_response : HttpxResponse) (uuid4 : string) : Outcome Response :=
  match json raw_response with
  | None =>
      raise (InfinityError (text raw_response) (status_code raw_response))
  | Some raw_response_json =>
      usage <- dict_get raw_response_json "usage" (JDict []) ;;
      kwargs <- keyword_arguments usage ;;
      _billed_units <- RerankBilledUnits kwargs ;;
      usage <- dict_get raw_response_json "usage" (JDict []) ;;
      input_tokens <- dict_get usage "prompt_tokens" (JInt 0) ;;
      usage <- dict_get raw_response_json "usage" (JDict []) ;;
      total_tokens <- dict_get usage "total_tokens" (JInt 0) ;;
      usage <- dict_get raw_response_json "usage" (JDict []) ;;
      prompt_tokens <- dict_get usage "prompt_tokens" (JInt 0) ;;
      output_tokens <- subtract total_tokens prompt_tokens ;;
      _tokens <- RerankTokens input_tokens output_tokens ;;
      rerank_meta <- RerankResponseMeta _billed_units _tokens ;;
      _results <- dict_get raw_response_json "results" JNull ;;
      match _results with
      | JNull =>
          raise (ValueError ("No results found in the response="
                               ++ repr raw_response_json))
      | _ =>
          id <- dict_get raw_response_json "id" JNull ;;
          RerankResponse (or_else id (JStr uuid4)) _results rerank_meta
      end
  end.

(** The usage dict of a parsed body ([{}] when the key is missing) and
    its two counters (0 when missing). *)
Definition usage_of (entries : list (string * Json)) : Json :=
  get_default (lookup "usage" entries) (JDict []).

Definition prompt_tokens_of (usage : list (string * Json)) : Json :=
  get_default (lookup "prompt_tokens" usage) (JInt 0).

Definition total_tokens_of (usage : list (string * Json)) : Json :=
  get_default (lookup "total_tokens" usage) (JInt 0).

Definition is_dict (v : Json) : bool :=
  match v with
  | JDict _ => true
  | _ => false
  end.

(** Models that keep what they are given, as a [TypedDict] does. *)
Definition plain_models : RerankModels :=
  {| BilledUnits := list (string * Json);
     Tokens := Json * Json;
     Meta := list (string * Json) * (Json * Json);
     Response := Json * Json * (list (string * Json) * (Json * Json));
     RerankBilledUnits := fun kwargs => inr kwargs;
     RerankTokens := fun input_tokens output_tokens =>
       inr (input_tokens, output_tokens);
     RerankResponseMeta := fun billed_units tokens =>
       inr (billed_units, tokens);
     RerankResponse := fun id results meta => inr (id, results, meta);
     repr := fun _ => "<body>"%string |}.

(** A response of the server: two results, 12 prompt tokens of 12. *)
Definition sample_results : Json :=
  JList [JDict [("index"%string, JInt 1)]; JDict [("index"%string, JInt 0)]].

Definition sample_body : list (string * Json) :=
  [("id"%string, JStr "infinity-1");
   ("results"%string, sample_results);
   ("usage"%string,
    JDict [("prompt_tokens"%string, JInt 12);
           ("total_tokens"%string, JInt 12)])].

Definition sample_response : HttpxResponse :=
  {| text := "{...}"; status_code := 200; json := Some (JDict sample_body) |}.

(** A body whose usage lacks [total_tokens], and one without results. *)
Definition response_without_total : HttpxResponse :=
  {| text := "{...}"; status_code := 200;
     json :=
       Some (JDict [("results"%string, JList []);
                    ("usage"%string,
                     JDict [("prompt_tokens"%string, JInt 7)])]) |}.

Definition response_without_results : HttpxResponse :=
  {| text := "{...}"; status_code := 200;
     json := Some (JDict [("id"%string, JStr "infinity-2")]) |}.

(** A body whose prompt counter is a string. *)
Definition response_with_text_counter : HttpxResponse :=
  {| text := "{...}"; status_code := 200;
     json :=
       Some (JDict [("results"%string, JList []);
                    ("usage"%string,
                     JDict [("prompt_tokens"%string, JStr "12");
                            ("total_tokens"%string, JInt 12)])]) |}.

Definition gateway_error_page : HttpxResponse :=
  {| text := "<html>502 Bad Gateway</html>"; status_code := 502;
     json := None |}.

End InfinityRerank.

(** ** Vocabulary of the further properties *)

(** The store is in chronological order: no event is stamped before one
    that precedes it. *)
Definition chronological (events : list FailureEvent) : Prop :=
  StronglySorted (fun earlier later => timestamp earlier <= timestamp later)
    events.

(** The clock readings of a sequence of calls never go back, starting
    from the reading [t]. *)
Fixpoint clock_never_goes_back (t : datetime) (calls : list Call) : Prop :=
  match calls with
  | [] => True
  | c :: rest => t <= call_now c /\ clock_never_goes_back (call_now c) rest
  end.

(** The HTTP client of the call answers every request with a response. *)
Definition client_returns (c : Call) : Prop :=
  forall request, exists response, call_client c request = Returned response.

(** The call carries a standard logging object. *)
Definition has_payload (c : Call) : Prop :=
  exists p, Logging.standard_logging_object (call_kwargs c) = Some p.

(** The event a call with a payload appends. *)
Definition event_of (c : Call) : option FailureEvent :=
  match Logging.standard_logging_object (call_kwargs c) with
  | Some p => Some (new_failure_event (call_now c) p)
  | None => None
  end.

(** An event with its seven [user_api_key_*] fields blanked. *)
Definition without_identity (fe : FailureEvent) : FailureEvent :=
  {| timestamp := timestamp fe;
     error_class := error_class fe;
     error_code := error_code fe;
     error_llm_provider := error_llm_provider fe;
     user_api_key_hash := None;
     user_api_key_alias := None;
     user_api_key_org_id := None;
     user_api_key_team_id := None;
     user_api_key_user_id := None;
     user_api_key_team_alias := None;
     user_api_key_end_user_id := None |}.

(** The alert for a single failure: the count is one and the digest is
    the line of the event the call appends. *)
Definition lone_alert (w : World) (c : Call) : HttpPost :=
  alert_request (api_key (self w))
    (alert_message 1 (window_seconds_of (alerting_config (self w))))
    (match event_of c with
     | Some fe => [summary_line fe]
     | None => []
     end).

(** A call whose payload has lost its metadata. *)
Definition without_metadata (c : Call) : Call :=
  {| call_client := call_client c;
     call_now := call_now c;
     call_kwargs :=
       {| Logging.standard_logging_object :=
            match Logging.standard_logging_object (call_kwargs c) with
            | Some p =>
                Some {| Logging.metadata := None;
                        Logging.error_information :=
                          Logging.error_information p |}
            | None => None
            end |} |}.

Local Open Scope list_scope.

(** ** Concrete runs *)

Example str_int_pos : str_int 42 = "42".
Proof. reflexivity. Qed.

Example str_int_zero : str_int 0 = "0".
Proof. reflexivity. Qed.

Example str_int_neg : str_int (-7) = "-7".
Proof. reflexivity. Qed.

Example slice_last_two : slice_from (-2) [1; 2; 3] = [2; 3].
Proof. reflexivity. Qed.

Example slice_minus_zero : slice_from (- 0) [1; 2; 3] = [1; 2; 3].
Proof. reflexivity. Qed.

Example slice_past_front : slice_from (-5) [1; 2; 3] = [1; 2; 3].
Proof. reflexivity. Qed.

Example slice_positive : slice_from 2 [1; 2; 3] = [3].
Proof. reflexivity. Qed.

Example datetime_range :
  datetime_min = -62135596800 * 1000000
  /\ datetime_max = 253402300799 * 1000000 + 999999.
Proof. split; reflexivity. Qed.

Example timedelta_of_a_minute : timedelta_seconds 60 = Returned 60000000.
Proof. reflexivity. Qed.

Example timedelta_of_a_negative_second :
  timedelta_seconds (-1) = Returned (-1000000).
Proof. reflexivity. Qed.

Example timedelta_too_long :
  timedelta_seconds 100000000000000
    = Raised (OverflowError
                "days=1157407407; must have magnitude <= 999999999").
Proof. reflexivity. Qed.

Example cutoff_a_minute_before_2023 :
  datetime_sub (1700000000 * 1000000) 60000000
    = Returned (1699999940 * 1000000).
Proof. reflexivity. Qed.

Example cutoff_before_year_one :
  datetime_sub (1700000000 * 1000000) (100000000000 * 1000000)
    = Raised (OverflowError "date value out of range").
Proof. reflexivity. Qed.

(** A window of 10^11 seconds: the hook raises at line 83 with the event
    appended, and sends nothing. *)
Example window_of_three_millennia :
  async_log_failure_event accepting_client (1700000000 * 1000000)
    (kwargs_with openai_500) (fresh_world "k" (config 100000000000 1))
  = (Raised (OverflowError "date value out of range"),
     with_failure_events (fresh_world "k" (config 100000000000 1))
       [new_failure_event (1700000000 * 1000000) openai_500]).
Proof. reflexivity. Qed.

Example or_str_absent : or_str None "N/A" = "N/A"%string.
Proof. reflexivity. Qed.

Example or_str_empty : or_str (Some ""%string) "N/A" = "N/A"%string.
Proof. reflexivity. Qed.

Example or_str_present : or_str (Some "500"%string) "N/A" = "500"%string.
Proof. reflexivity. Qed.

Example line_of_openai_500 :
  summary_line (new_failure_event 0 openai_500)
    = "ValueError (code: 500, provider: openai)"%string.
Proof. reflexivity. Qed.

(** Window 60 s, threshold 3, failures at 0 s, 10 s and 20 s: the first two
    ingestions send nothing, the third sends one alert and empties the
    store. *)

Example two_failures_stay_quiet :
  posted (ingest_all (firstn 2 three_failures) (fresh_world "k" (config 60 3)))
    = []
  /\ List.length
       (events_of
          (ingest_all (firstn 2 three_failures)
             (fresh_world "k" (config 60 3)))) = 2%nat.
Proof. split; reflexivity. Qed.

Example third_failure_alerts :
  ingest_all three_failures (fresh_world "k" (config 60 3)) =
    with_posted (fresh_world "k" (config 60 3))
      [alert_request "k"
         "High LLM API Failure Rate: 3 failures in the last 60 seconds."
         ["ValueError (code: 500, provider: openai)"%string;
          "N/A (code: N/A, provider: N/A)"%string;
          "ValueError (code: 500, provider: openai)"%string]].
Proof. reflexivity. Qed.

(** An event stamped at 20 s is exactly at the cutoff of an ingestion at
    80 s with a 60 s window: it goes, and the new event is alone. *)
Example event_at_the_cutoff_is_pruned :
  events_of (ingest (at_second accepting_client 80 bare_payload) one_event_world)
    = [new_failure_event 80000000 bare_payload]
  /\ posted (ingest (at_second accepting_client 80 bare_payload) one_event_world)
       = [].
Proof. split; reflexivity. Qed.

(** Threshold 1 (the default): the first failure alerts at once. *)
Example default_threshold_alerts_at_once :
  ingest (at_second accepting_client 0 bare_payload)
    (fresh_world "k" default_config) =
    with_posted (fresh_world "k" default_config)
      [alert_request "k"
         "High LLM API Failure Rate: 1 failures in the last 60 seconds."
         ["N/A (code: N/A, provider: N/A)"%string]].
Proof. reflexivity. Qed.

(** More than five events in the store: the digest has the last five. *)
Example digest_of_seven_events :
  fst (_build_error_summaries 5
         (with_failure_events (fresh_world "k" (config 60 10)) seven_events))
    = Returned ["N/A (code: N/A, provider: N/A)"%string;
                "ValueError (code: 500, provider: openai)"%string;
                "N/A (code: N/A, provider: N/A)"%string;
                "ValueError (code: 500, provider: openai)"%string;
                "N/A (code: N/A, provider: N/A)"%string].
Proof. reflexivity. Qed.

(** A negative [max_errors] makes the slice start at a positive index. *)
Example digest_with_negative_max_errors :
  fst (_build_error_summaries (-6)
         (with_failure_events (fresh_world "k" (config 60 10)) seven_events))
    = Returned ["N/A (code: N/A, provider: N/A)"%string].
Proof. reflexivity. Qed.

(** ** The two loops *)

Lemma prune_loop_filter cutoff events acc :
  prune_loop cutoff events acc = acc ++ filter (newer_than cutoff) events.
Proof.
  revert acc.
  induction events as [|fe rest IH]; intros acc; cbn [prune_loop filter].
  - now rewrite app_nil_r.
  - unfold newer_than at 1.
    destruct (cutoff <? timestamp fe); rewrite IH; [|reflexivity].
    now rewrite <- app_assoc.
Qed.

Lemma summaries_loop_map events acc :
  summaries_loop events acc = acc ++ map summary_line events.
Proof.
  revert acc.
  induction events as [|fe rest IH]; intros acc; cbn [summaries_loop map].
  - now rewrite app_nil_r.
  - rewrite IH. now rewrite <- app_assoc.
Qed.

Lemma filter_in_order {A : Type} (keep : A -> bool) (l : list A) :
  InOrderWithin (filter keep l) l.
Proof.
  induction l as [|x l IH]; cbn [filter].
  - constructor.
  - destruct (keep x); now constructor.
Qed.

(** ** What each method does to the world *)

Lemma run_prune cutoff w :
  _prune_failure_events cutoff w =
    (Returned tt,
     with_failure_events w (filter (newer_than cutoff) (events_of w))).
Proof.
  unfold _prune_failure_events, get_failure_events, set_failure_events.
  cbn. now rewrite prune_loop_filter.
Qed.

Lemma run_build_error_summaries max_errors w :
  _build_error_summaries max_errors w =
    (Returned (map summary_line (slice_from (- max_errors) (events_of w))), w).
Proof.
  unfold _build_error_summaries, get_failure_events.
  cbn. now rewrite summaries_loop_map.
Qed.

Lemma cutoff_of_in_range now w :
  cutoff_in_range now w = true -> cutoff_of now w = Returned (cutoff_at now w).
Proof.
  unfold cutoff_in_range, cutoff_of, cutoff_at, timedelta_seconds,
    datetime_sub.
  destruct (_ && _); [|discriminate].
  destruct (is_datetime _); [reflexivity|discriminate].
Qed.

Lemma cutoff_of_out_of_range now w :
  cutoff_in_range now w = false ->
  exists e, cutoff_of now w = Raised e /\ exn_class e = "OverflowError".
Proof.
  unfold cutoff_in_range, cutoff_of, timedelta_seconds, datetime_sub.
  destruct (_ && _).
  - destruct (is_datetime _); [discriminate|]. intros _. eexists.
    split; reflexivity.
  - intros _. eexists. split; reflexivity.
Qed.

(** The cutoff is in range exactly when the window is at most 999999999
    days long, either way, and lies no further back from [now] than
    [datetime.min] and no further ahead than [datetime.max]. *)
Lemma cutoff_in_range_spec now w :
  cutoff_in_range now w = true <->
  (-999999999 <= window_seconds_of (alerting_config (self w)) / 86400
     <= 999999999)
  /\ datetime_min <= cutoff_at now w <= datetime_max.
Proof.
  unfold cutoff_in_range, cutoff_of, timedelta_seconds. cbv zeta.
  destruct ((-999999999 <=? _) && (_ <=? 999999999)) eqn:Hdays.
  - unfold datetime_sub, is_datetime. cbv zeta. fold (cutoff_at now w).
    rewrite andb_true_iff, !Z.leb_le in Hdays.
    destruct ((datetime_min <=? _) && (_ <=? datetime_max)) eqn:Hcutoff.
    + rewrite andb_true_iff, !Z.leb_le in Hcutoff.
      split; [intros _; lia | reflexivity].
    + rewrite andb_false_iff, !Z.leb_gt in Hcutoff.
      split; [discriminate | lia].
  - rewrite andb_false_iff, !Z.leb_gt in Hdays.
    split; [discriminate | lia].
Qed.

Lemma run_record_and_prune_cases now p w :
  record_and_prune now {| Logging.standard_logging_object := Some p |} w =
    match cutoff_of now w with
    | Returned cutoff =>
        (Returned (window_seconds_of (alerting_config (self w)),
                   threshold_of (alerting_config (self w))),
         with_failure_events w
           (filter (newer_than cutoff)
              (events_of w ++ [new_failure_event now p])))
    | Raised e =>
        (Raised e,
         with_failure_events w (events_of w ++ [new_failure_event now p]))
    end.
Proof.
  unfold record_and_prune, get_failure_events, set_failure_events, cutoff_of,
    outcome.
  cbn.
  destruct (timedelta_seconds _) as [delta|e]; [|reflexivity].
  destruct (datetime_sub now delta) as [cutoff|e]; [|reflexivity].
  cbn. rewrite prune_loop_filter. reflexivity.
Qed.

Lemma run_record_and_prune now p w :
  cutoff_in_range now w = true ->
  record_and_prune now {| Logging.standard_logging_object := Some p |} w =
    (Returned (window_seconds_of (alerting_config (self w)),
               threshold_of (alerting_config (self w))),
     with_failure_events w
       (filter (newer_than (cutoff_at now w))
          (events_of w ++ [new_failure_event now p]))).
Proof.
  intros Hrange. rewrite run_record_and_prune_cases.
  now rewrite (cutoff_of_in_range now w Hrange).
Qed.

Lemma run_record_and_prune_overflow now p w :
  cutoff_in_range now w = false ->
  exists e,
    exn_class e = "OverflowError"
    /\ record_and_prune now {| Logging.standard_logging_object := Some p |} w
       = (Raised e,
          with_failure_events w (events_of w ++ [new_failure_event now p])).
Proof.
  intros Hrange. rewrite run_record_and_prune_cases.
  destruct (cutoff_of_out_of_range now w Hrange) as (e & -> & Hclass).
  now exists e.
Qed.

Lemma run_record_and_prune_missing now w :
  record_and_prune now {| Logging.standard_logging_object := None |} w =
    (Raised (ValueError "standard_logging_object is required for PagerDutyAlerting"),
     w).
Proof. reflexivity. Qed.

Lemma run_send_alert client alert_message custom_details w :
  let request :=
    {| url := "https://events.pagerduty.com/v2/enqueue";
       json := PagerDutyRequestBody (api_key (self w)) alert_message
                 custom_details;
       headers := [("Content-Type", "application/json")] |} in
  send_alert_to_pagerduty client alert_message custom_details w =
    (client request, with_posted w (posted w ++ [request])).
Proof.
  unfold send_alert_to_pagerduty, post. cbn.
  destruct (client _); reflexivity.
Qed.

Lemma store_at_test_call client now p w :
  store_at_test (call client now p) w =
    if cutoff_in_range now w then
      filter (newer_than (cutoff_at now w))
        (events_of w ++ [new_failure_event now p])
    else events_of w ++ [new_failure_event now p].
Proof.
  unfold store_at_test, call. cbn [call_now call_kwargs].
  destruct (cutoff_in_range now w) eqn:Hrange.
  - now rewrite run_record_and_prune.
  - destruct (run_record_and_prune_overflow now p w Hrange) as (e & _ & ->).
    reflexivity.
Qed.

Lemma store_at_test_in_range client now p w :
  cutoff_in_range now w = true ->
  store_at_test (call client now p) w =
    filter (newer_than (cutoff_at now w))
      (events_of w ++ [new_failure_event now p]).
Proof. intros Hrange. now rewrite store_at_test_call, Hrange. Qed.

Lemma crossed_call client now p w :
  crossed (call client now p) w =
    cutoff_in_range now w
    && (threshold_of (alerting_config (self w))
          <=? Z.of_nat (List.length (store_at_test (call client now p) w))).
Proof.
  unfold crossed, store_at_test, call. cbn [call_now call_kwargs].
  destruct (cutoff_in_range now w) eqn:Hrange.
  - now rewrite run_record_and_prune.
  - destruct (run_record_and_prune_overflow now p w Hrange) as (e & _ & ->).
    reflexivity.
Qed.

Lemma crossed_in_range client now p w :
  crossed (call client now p) w = true -> cutoff_in_range now w = true.
Proof.
  rewrite crossed_call. now intros [Hrange _]%andb_prop.
Qed.

(** The whole hook in closed form, for a call that carries a payload. *)
Lemma run_ingestion client now p w :
  let c := call client now p in
  let sent := with_posted w (posted w ++ [alert_for c w]) in
  async_log_failure_event client now (call_kwargs c) w =
    match cutoff_of now w with
    | Raised e => (Raised e, with_failure_events w (store_at_test c w))
    | Returned _ =>
        if crossed c w then
          match client (alert_for c w) with
          | Returned _ => (Returned tt, with_failure_events sent [])
          | Raised e =>
              (Raised e, with_failure_events sent (store_at_test c w))
          end
        else (Returned tt, with_failure_events w (store_at_test c w))
    end.
Proof.
  intros c sent. subst c sent.
  rewrite crossed_call. unfold alert_for.
  rewrite !store_at_test_call.
  unfold async_log_failure_event. cbn [call_kwargs call].
  cbn [bind Monad_Method]. rewrite run_record_and_prune_cases.
  unfold cutoff_in_range.
  destruct (cutoff_of now w) as [cutoff|e] eqn:Hcutoff; [|reflexivity].
  assert (Hrange : cutoff_in_range now w = true)
    by (unfold cutoff_in_range; now rewrite Hcutoff).
  rewrite (cutoff_of_in_range now w Hrange) in Hcutoff.
  injection Hcutoff as <-.
  set (store := filter _ _). cbn [andb].
  unfold alert_if_crossed, get_failure_events.
  cbn [bind ret get Monad_Method State_Method with_failure_events self
       _failure_events alerting_config api_key posted].
  destruct (threshold_of _ <=? Z.of_nat (List.length store)); [|reflexivity].
  rewrite run_build_error_summaries.
  cbn [events_of with_failure_events self _failure_events].
  rewrite run_send_alert.
  set (built := Build_HttpPost _ _ _).
  set (owed := alert_request _ _ _).
  assert (E : built = owed) by reflexivity.
  rewrite E. destruct (client owed); reflexivity.
Qed.

Lemma run_ingestion_in_range client now p w :
  cutoff_in_range now w = true ->
  let c := call client now p in
  let sent := with_posted w (posted w ++ [alert_for c w]) in
  async_log_failure_event client now (call_kwargs c) w =
    if crossed c w then
      match client (alert_for c w) with
      | Returned _ => (Returned tt, with_failure_events sent [])
      | Raised e => (Raised e, with_failure_events sent (store_at_test c w))
      end
    else (Returned tt, with_failure_events w (store_at_test c w)).
Proof.
  intros Hrange c sent.
  pose proof (run_ingestion client now p w) as Hrun. cbn zeta in Hrun.
  now rewrite (cutoff_of_in_range now w Hrange) in Hrun.
Qed.

(** The hook as a world transformer, for any call. *)
Lemma ingest_closed_form c w :
  ingest c w =
    if crossed c w then
      with_failure_events
        (with_posted w (posted w ++ [alert_for c w]))
        (match call_client c (alert_for c w) with
         | Returned _ => []
         | Raised _ => store_at_test c w
         end)
    else with_failure_events w (store_at_test c w).
Proof.
  destruct c as [client now [[p|]]].
  - change {| call_client := client; call_now := now; call_kwargs := _ |}
      with (call client now p).
    unfold ingest.
    rewrite (run_ingestion client now p w : async_log_failure_event
      (call_client (call client now p)) (call_now (call client now p)) _ w = _).
    rewrite crossed_call. unfold cutoff_in_range.
    destruct (cutoff_of now w); [|reflexivity].
    cbn [andb]. destruct (_ <=? _); [|reflexivity].
    cbn [call_client call]. destruct (client _); reflexivity.
  - destruct w as [[key cfg events] wire]. reflexivity.
Qed.

Lemma posted_after_ingest c w :
  posted (ingest c w) =
    if crossed c w then posted w ++ [alert_for c w] else posted w.
Proof.
  rewrite ingest_closed_form. destruct (crossed c w); reflexivity.
Qed.

Lemma posted_count_along calls :
  forall w,
    List.length (posted (ingest_all calls w)) =
      (List.length (posted w) + crossings calls w)%nat.
Proof.
  induction calls as [|c rest IH]; intros w; cbn [ingest_all crossings].
  - lia.
  - rewrite IH, posted_after_ingest.
    destruct (crossed c w); [rewrite length_app; cbn [List.length]|]; lia.
Qed.

(** ** Properties of the engine *)

(** C1, counterexample to the claim as written: with a threshold of zero
    and a window of 10^11 seconds, a failure reported in November 2023
    (second 1700000000) is appended, the cutoff of line 83 falls before
    [datetime.min], the hook raises [OverflowError] and no alert goes
    out. *)
Lemma zero_threshold_is_silent_when_the_cutoff_overflows :
  threshold_of (config 100000000000 0) <= 0
  /\ has_payload (at_second accepting_client 1700000000 bare_payload)
  /\ fst (async_log_failure_event accepting_client (1700000000 * 1000000)
            (kwargs_with bare_payload)
            (fresh_world "k" (config 100000000000 0)))
     = Raised (OverflowError "date value out of range")
  /\ posted (ingest (at_second accepting_client 1700000000 bare_payload)
               (fresh_world "k" (config 100000000000 0))) = []
  /\ events_of (ingest (at_second accepting_client 1700000000 bare_payload)
                  (fresh_world "k" (config 100000000000 0)))
     = [new_failure_event (1700000000 * 1000000) bare_payload].
Proof.
  split; [cbn; lia|]. split; [now exists bare_payload|].
  repeat split; reflexivity.
Qed.

(** C1, amended.  When the cutoff of line 83 is in range, the threshold
    test of an ingestion runs on the pruned store and passes exactly when
    the size of that store is at least [failure_threshold]: then one alert
    goes out, otherwise none, and a threshold of zero or below passes
    every time.  When the cutoff is out of range the hook raises
    [OverflowError] with the event appended: nothing is pruned, tested or
    sent.  Along any sequence of ingestions the number of alerts sent is
    the number of passed tests. *)
Theorem dispatch_exactly_when_threshold_reached
  (client : AsyncHTTPHandler) (now : datetime)
  (p : Logging.StandardLoggingPayload) (w : World) :
  let c := call client now p in
  let size := Z.of_nat (List.length (store_at_test c w)) in
  let threshold := threshold_of (alerting_config (self w)) in
  (cutoff_in_range now w = true ->
   crossed c w = (threshold <=? size)
   /\ (threshold <= size ->
       posted (ingest c w) = posted w ++ [alert_for c w])
   /\ (size < threshold -> posted (ingest c w) = posted w)
   /\ (threshold <= 0 ->
       posted (ingest c w) = posted w ++ [alert_for c w]))
  /\ (cutoff_in_range now w = false ->
      crossed c w = false
      /\ (exists e,
            exn_class e = "OverflowError"%string
            /\ fst (async_log_failure_event client now (call_kwargs c) w)
               = Raised e)
      /\ posted (ingest c w) = posted w
      /\ events_of (ingest c w) = events_of w ++ [new_failure_event now p])
  /\ (forall calls w0,
        List.length (posted (ingest_all calls w0)) =
          (List.length (posted w0) + crossings calls w0)%nat).
Proof.
  intros c size threshold.
  pose proof (crossed_call client now p w) as Hc. fold c size threshold in Hc.
  pose proof (posted_after_ingest c w) as Hp.
  split; [|split].
  - intros Hrange. rewrite Hrange in Hc. cbn [andb] in Hc. rewrite Hc in Hp.
    split; [exact Hc|].
    split; [|split].
    + intros H. apply Z.leb_le in H. now rewrite H in Hp.
    + intros H. apply Z.leb_gt in H. now rewrite H in Hp.
    + intros H.
      assert ((threshold <=? size) = true) as E by (apply Z.leb_le; lia).
      now rewrite E in Hp.
  - intros Hrange. rewrite Hrange in Hc. cbn [andb] in Hc. rewrite Hc in Hp.
    split; [exact Hc|].
    pose proof (store_at_test_call client now p w) as Hstore.
    rewrite Hrange in Hstore. fold c in Hstore.
    split; [|split].
    + pose proof (run_ingestion client now p w) as Hrun. cbn zeta in Hrun.
      destruct (cutoff_of_out_of_range now w Hrange) as (e & He & Hclass).
      rewrite He in Hrun. exists e. split; [exact Hclass|].
      fold c in Hrun. now rewrite Hrun.
    + exact Hp.
    + rewrite ingest_closed_form, Hc, Hstore. reflexivity.
  - intros calls w0. apply posted_count_along.
Qed.

(** C2. Pruning keeps exactly the events whose timestamp is strictly after
    the cutoff (one stamped at the cutoff goes), in their order; after the
    prune of an ingestion at [now], whose cutoff line 83 has computed, the
    store holds exactly the events stamped after [now - window_seconds]. *)
Theorem prune_keeps_exactly_the_newer (cutoff : datetime) (w : World) :
  let kept := events_of (snd (_prune_failure_events cutoff w)) in
  fst (_prune_failure_events cutoff w) = Returned tt
  /\ kept = filter (fun fe => cutoff <? timestamp fe) (events_of w)
  /\ (forall fe, In fe kept <-> In fe (events_of w) /\ cutoff < timestamp fe)
  /\ (forall fe, timestamp fe <= cutoff -> ~ In fe kept)
  /\ InOrderWithin kept (events_of w)
  /\ (forall client now p delta ingestion_cutoff,
        timedelta_seconds (window_seconds_of (alerting_config (self w)))
          = Returned delta ->
        datetime_sub now delta = Returned ingestion_cutoff ->
        ingestion_cutoff
          = now - window_seconds_of (alerting_config (self w)) * 1000000
        /\ store_at_test (call client now p) w =
             filter (fun fe => ingestion_cutoff <? timestamp fe)
               (events_of w ++ [new_failure_event now p])).
Proof.
  intros kept. subst kept. rewrite run_prune.
  cbn [fst snd events_of with_failure_events self _failure_events].
  fold (events_of w).
  assert (Hin : forall fe,
             In fe (filter (newer_than cutoff) (events_of w)) <->
             In fe (events_of w) /\ cutoff < timestamp fe).
  { intros fe. rewrite filter_In. unfold newer_than. now rewrite Z.ltb_lt. }
  split; [reflexivity|].
  split; [reflexivity|].
  split; [exact Hin|].
  split; [|split].
  - intros fe Hold Hkept. apply Hin in Hkept. lia.
  - apply filter_in_order.
  - intros client now p delta ingestion_cutoff Hdelta Hcutoff.
    assert (Hof : cutoff_of now w = Returned ingestion_cutoff)
      by (unfold cutoff_of; now rewrite Hdelta).
    assert (Hrange : cutoff_in_range now w = true)
      by (unfold cutoff_in_range; now rewrite Hof).
    rewrite (cutoff_of_in_range now w Hrange) in Hof.
    injection Hof as <-.
    split; [reflexivity|].
    now apply store_at_test_in_range.
Qed.

(** C3, counterexample to the claim as written: the threshold is crossed
    and the alert is attempted, the send raises, and the store still holds
    the event. *)
Lemma store_survives_a_failed_send :
  crossed (at_second failing_client 0 bare_payload)
    (fresh_world "k" default_config) = true
  /\ posted (ingest (at_second failing_client 0 bare_payload)
               (fresh_world "k" default_config)) <> []
  /\ events_of (ingest (at_second failing_client 0 bare_payload)
                  (fresh_world "k" default_config)) <> [].
Proof. repeat split; discriminate. Qed.

(** C3, amended.  When the threshold is crossed the alert is attempted.
    If the send returns, the ingestion returns with the store empty; if
    the send raises, the exception leaves the ingestion and the store
    keeps the pruned events. *)
Theorem store_cleared_when_the_send_returns
  (client : AsyncHTTPHandler) (now : datetime)
  (p : Logging.StandardLoggingPayload) (w : World) :
  let c := call client now p in
  crossed c w = true ->
  posted (ingest c w) = posted w ++ [alert_for c w]
  /\ (forall response,
        client (alert_for c w) = Returned response ->
        fst (async_log_failure_event client now (call_kwargs c) w)
          = Returned tt
        /\ events_of (ingest c w) = [])
  /\ (forall e,
        client (alert_for c w) = Raised e ->
        fst (async_log_failure_event client now (call_kwargs c) w)
          = Raised e
        /\ events_of (ingest c w) = store_at_test c w).
Proof.
  intros c Hcrossed.
  pose proof (run_ingestion_in_range client now p w
                (crossed_in_range client now p w Hcrossed)) as Hrun.
  cbn zeta in Hrun. fold c in Hrun. rewrite Hcrossed in Hrun.
  split; [|split].
  - rewrite posted_after_ingest. now rewrite Hcrossed.
  - intros response Hsend. unfold ingest.
    change (call_client c) with client. change (call_now c) with now.
    rewrite Hrun, Hsend. split; reflexivity.
  - intros e Hsend. unfold ingest.
    change (call_client c) with client. change (call_now c) with now.
    rewrite Hrun, Hsend. split; reflexivity.
Qed.

(** The theorem on the first failure under the default configuration,
    with a client that accepts the alert. *)
Lemma store_cleared_when_the_send_returns_witness :
  crossed (at_second accepting_client 0 bare_payload)
    (fresh_world "k" default_config) = true
  /\ events_of (ingest (at_second accepting_client 0 bare_payload)
                  (fresh_world "k" default_config)) = [].
Proof.
  split; [reflexivity|].
  apply (store_cleared_when_the_send_returns accepting_client 0 bare_payload
           (fresh_world "k" default_config) eq_refl)
    with (response := {| status_code := 202 |}).
  reflexivity.
Defined.

(** C4. Without the standard logging object the hook raises a
    [ValueError] that names it, and the world is what it was: nothing
    appended, nothing pruned, nothing sent. *)
Theorem missing_payload_is_rejected
  (client : AsyncHTTPHandler) (now : datetime) (kwargs : Logging.Kwargs)
  (w : World) :
  Logging.standard_logging_object kwargs = None ->
  async_log_failure_event client now kwargs w =
    (Raised
       (ValueError "standard_logging_object is required for PagerDutyAlerting"),
     w).
Proof.
  intros Hmissing. destruct kwargs as [payload]. cbn in Hmissing.
  subst payload. reflexivity.
Qed.

(** The theorem on a store of one event. *)
Lemma missing_payload_is_rejected_witness :
  async_log_failure_event accepting_client 80000000 kwargs_without
    one_event_world =
    (Raised
       (ValueError "standard_logging_object is required for PagerDutyAlerting"),
     one_event_world).
Proof.
  apply (missing_payload_is_rejected accepting_client 80000000 kwargs_without
           one_event_world).
  reflexivity.
Defined.

(** C5, counterexample to the claim as written: asked for at most zero
    lines, the builder returns one line for a store of one event. *)
Lemma summary_unbounded_at_zero : ~ summary_bounded 0 one_event_world.
Proof.
  intros Hbound.
  specialize (Hbound ["N/A (code: N/A, provider: N/A)"%string] eq_refl).
  cbn in Hbound. lia.
Qed.

Lemma slice_from_back {A : Type} (n : Z) (l : list A) :
  1 <= n ->
  slice_from (- n) l = skipn (List.length l - Z.to_nat n) l.
Proof.
  intros Hn. unfold slice_from.
  destruct (Z.ltb_spec (- n) 0) as [_|Hge]; [|lia].
  f_equal. lia.
Qed.

(** C5, amended.  For [max_errors] of one or more the builder returns one
    line per event of the last [max_errors] events of the store (all of
    them when the store holds fewer), oldest first, and leaves the world
    as it was. *)
Theorem summaries_cover_the_most_recent (max_errors : Z) (w : World) :
  1 <= max_errors ->
  exists older recent : list FailureEvent,
    events_of w = older ++ recent
    /\ Z.of_nat (List.length recent)
         = Z.min max_errors (Z.of_nat (List.length (events_of w)))
    /\ Z.of_nat (List.length (map summary_line recent)) <= max_errors
    /\ _build_error_summaries max_errors w
         = (Returned (map summary_line recent), w).
Proof.
  intros Hmax.
  set (k := (List.length (events_of w) - Z.to_nat max_errors)%nat).
  exists (firstn k (events_of w)), (skipn k (events_of w)).
  assert (Hlen : Z.of_nat (List.length (skipn k (events_of w)))
                   = Z.min max_errors (Z.of_nat (List.length (events_of w)))).
  { rewrite length_skipn. subst k. lia. }
  split; [now rewrite firstn_skipn|].
  split; [exact Hlen|].
  split; [rewrite length_map; lia|].
  rewrite run_build_error_summaries.
  now rewrite slice_from_back.
Qed.

(** The theorem for the digest of five on a store of one event. *)
Lemma summaries_cover_the_most_recent_witness :
  exists older recent : list FailureEvent,
    events_of one_event_world = older ++ recent
    /\ Z.of_nat (List.length recent)
         = Z.min 5 (Z.of_nat (List.length (events_of one_event_world)))
    /\ Z.of_nat (List.length (map summary_line recent)) <= 5
    /\ _build_error_summaries 5 one_event_world
         = (Returned (map summary_line recent), one_event_world).
Proof.
  apply (summaries_cover_the_most_recent 5 one_event_world). lia.
Defined.

Lemma or_str_shown (field : option string) :
  shown_as field (or_str field "N/A").
Proof.
  unfold shown_as, or_str, truthy.
  destruct field as [s|].
  - destruct (String.eqb_spec s "") as [->|Hne]; cbn [negb].
    + split; [discriminate|]. split; [|reflexivity].
      intros s [= <-] Hs. now elim Hs.
    + split; [exact Hne|]. split.
      * now intros s' [= <-] _.
      * intros [H|[= H]]; [discriminate|]. now elim Hne.
  - split; [discriminate|]. split; [discriminate|reflexivity].
Qed.

(** C6. A digest line is the error class, the code and the provider in
    the fixed frame; each is shown by its own text, or by ["N/A"] when it
    is absent or empty, so no part of a line is empty.  An event with none
    of the three renders as ["N/A (code: N/A, provider: N/A)"]. *)
Theorem summary_line_shows_every_field (fe : FailureEvent) :
  (exists class code provider : string,
      summary_line fe
        = (class ++ " (code: " ++ code ++ ", provider: " ++ provider ++ ")")%string
      /\ shown_as (error_class fe) class
      /\ shown_as (error_code fe) code
      /\ shown_as (error_llm_provider fe) provider)
  /\ (error_class fe = None ->
      error_code fe = None ->
      error_llm_provider fe = None ->
      summary_line fe = "N/A (code: N/A, provider: N/A)"%string).
Proof.
  split.
  - exists (or_str (error_class fe) "N/A"), (or_str (error_code fe) "N/A"),
      (or_str (error_llm_provider fe) "N/A").
    split; [reflexivity|].
    repeat split; apply or_str_shown.
  - intros Hclass Hcode Hprovider. unfold summary_line.
    now rewrite Hclass, Hcode, Hprovider.
Qed.

(** C7. With [PAGERDUTY_API_KEY] unset or empty the constructor raises at
    once, whatever the inherited initialiser would do, and no engine
    comes out of it; with a key, and the inherited initialiser returning,
    it returns an engine that holds the key, the configuration and an
    empty store. *)
Theorem construction_requires_the_key
  (getenv : string -> option string) (cfg : AlertingConfig) :
  (getenv "PAGERDUTY_API_KEY"%string = None
   \/ getenv "PAGERDUTY_API_KEY"%string = Some ""%string ->
   forall super_init,
     __init__ getenv cfg super_init
       = Raised (ValueError "PAGERDUTY_API_KEY is not set"))
  /\ (forall key,
        getenv "PAGERDUTY_API_KEY"%string = Some key ->
        key <> ""%string ->
        __init__ getenv cfg (Returned tt)
          = Returned {| api_key := key; alerting_config := cfg;
                        _failure_events := [] |}).
Proof.
  unfold __init__. split.
  - intros [-> | ->] super_init; reflexivity.
  - intros key -> Hkey. unfold truthy.
    destruct (String.eqb_spec key ""); [contradiction|reflexivity].
Qed.

Lemma api_key_after_ingest c w : api_key (self (ingest c w)) = api_key (self w).
Proof.
  rewrite ingest_closed_form. destruct (crossed c w); reflexivity.
Qed.

Lemma alerts_along calls :
  forall w,
  exists alerts,
    posted (ingest_all calls w) = posted w ++ alerts
    /\ Forall
         (fun request =>
            exists summary_text recent_errors,
              request = alert_request (api_key (self w)) summary_text
                          recent_errors)
         alerts.
Proof.
  induction calls as [|c rest IH]; intros w; cbn [ingest_all].
  - exists []. split; [now rewrite app_nil_r | constructor].
  - destruct (IH (ingest c w)) as (alerts & Hposted & Hshape).
    rewrite api_key_after_ingest in Hshape.
    rewrite Hposted, posted_after_ingest.
    destruct (crossed c w).
    + exists (alert_for c w :: alerts). split.
      * now rewrite <- app_assoc.
      * constructor; [|exact Hshape]. unfold alert_for. eauto.
    + exists alerts. split; [reflexivity | exact Hshape].
Qed.

(** C8. Every request handed to the HTTP client goes to the events
    endpoint as JSON and is the object
    [{payload: {summary, severity: critical, source, component,
    custom_details}, routing_key, event_action: trigger}] with the key of
    the engine; an ingestion that crosses the threshold sends it with the
    alert text as summary and the lines of the summary builder under
    [recent_errors], and so does every alert of a sequence. *)
Theorem alert_has_the_pagerduty_shape
  (client : AsyncHTTPHandler) (now : datetime)
  (p : Logging.StandardLoggingPayload) (w : World) :
  let c := call client now p in
  (forall alert_text custom_details,
      snd (send_alert_to_pagerduty client alert_text custom_details w) =
        with_posted w
          (posted w ++
             [{| url := "https://events.pagerduty.com/v2/enqueue";
                 json :=
                   VDict [("payload"%string,
                           VDict [("summary"%string, VStr alert_text);
                                  ("severity"%string, VStr "critical");
                                  ("source"%string, VStr "LiteLLM Alert");
                                  ("component"%string, VStr "LiteLLM");
                                  ("custom_details"%string, custom_details)]);
                          ("routing_key"%string, VStr (api_key (self w)));
                          ("event_action"%string, VStr "trigger")];
                 headers :=
                   [("Content-Type"%string, "application/json"%string)] |}]))
  /\ (crossed c w = true ->
      exists lines,
        fst (_build_error_summaries 5
               (snd (record_and_prune now (call_kwargs c) w)))
          = Returned lines
        /\ posted (ingest c w) =
             posted w ++
               [alert_request (api_key (self w))
                  (alert_message (List.length (store_at_test c w))
                     (window_seconds_of (alerting_config (self w))))
                  lines])
  /\ (forall calls w0,
      exists alerts,
        posted (ingest_all calls w0) = posted w0 ++ alerts
        /\ Forall
             (fun request =>
                exists summary_text recent_errors,
                  request = alert_request (api_key (self w0)) summary_text
                              recent_errors)
             alerts).
Proof.
  intros c. split; [|split].
  - intros alert_text custom_details. now rewrite run_send_alert.
  - intros Hcrossed.
    exists (map summary_line (slice_from (-5) (store_at_test c w))).
    split.
    + now rewrite run_build_error_summaries.
    + rewrite posted_after_ingest, Hcrossed. reflexivity.
  - intros calls w0. apply alerts_along.
Qed.

(** C9. Called with [max_errors = 0] the builder returns one line for
    every event of the store, since [events[-0:]] is the whole list. *)
Theorem zero_max_errors_summarises_the_whole_store (w : World) :
  slice_from (- 0) (events_of w) = events_of w
  /\ _build_error_summaries 0 w
       = (Returned (map summary_line (events_of w)), w)
  /\ (forall lines,
        fst (_build_error_summaries 0 w) = Returned lines ->
        List.length lines = List.length (events_of w)).
Proof.
  assert (Hslice : slice_from (- 0) (events_of w) = events_of w).
  { unfold slice_from. cbv zeta. change (- 0) with 0.
    change (0 <? 0) with false. cbv iota. rewrite Z.min_l by lia.
    reflexivity. }
  split; [exact Hslice|].
  rewrite run_build_error_summaries, Hslice.
  split; [reflexivity|].
  intros lines [= <-]. apply length_map.
Qed.

(** C10, counterexample to the claim as written: the window of 10^11
    seconds is positive, yet the failure of second 1700000000 meets no
    prune and no threshold test: the hook raises [OverflowError] at line
    83, the store holds the one event, as many as the threshold asks for,
    and no alert goes out. *)
Lemma appended_event_is_not_tested_when_the_cutoff_overflows :
  0 < window_seconds_of (config 100000000000 1)
  /\ fst (async_log_failure_event accepting_client (1700000000 * 1000000)
            (kwargs_with bare_payload)
            (fresh_world "k" (config 100000000000 1)))
     = Raised (OverflowError "date value out of range")
  /\ events_of (ingest (at_second accepting_client 1700000000 bare_payload)
                  (fresh_world "k" (config 100000000000 1)))
     = [new_failure_event (1700000000 * 1000000) bare_payload]
  /\ threshold_of (config 100000000000 1)
     <= Z.of_nat
          (List.length
             (events_of
                (ingest (at_second accepting_client 1700000000 bare_payload)
                   (fresh_world "k" (config 100000000000 1)))))
  /\ posted (ingest (at_second accepting_client 1700000000 bare_payload)
               (fresh_world "k" (config 100000000000 1))) = [].
Proof.
  split; [cbn; lia|]. split; [reflexivity|]. split; [reflexivity|].
  split; [cbn; lia | reflexivity].
Qed.

(** C10, amended.  For an ingestion whose cutoff line 83 can compute:
    with a positive window the event it appends survives its prune and is
    the last of the tested store, which therefore holds at least one
    event.  With a window of zero the cutoff is the event's own timestamp:
    the tested store is what the old store holds strictly after [now], and
    the appended event is not in it. *)
Theorem appended_event_and_its_own_prune
  (client : AsyncHTTPHandler) (now : datetime)
  (p : Logging.StandardLoggingPayload) (w : World) :
  let c := call client now p in
  let window_seconds := window_seconds_of (alerting_config (self w)) in
  cutoff_in_range now w = true ->
  (0 < window_seconds ->
   store_at_test c w =
     filter (newer_than (cutoff_at now w)) (events_of w)
       ++ [new_failure_event now p]
   /\ 1 <= Z.of_nat (List.length (store_at_test c w)))
  /\ (window_seconds = 0 ->
      store_at_test c w = filter (newer_than now) (events_of w)
      /\ ~ In (new_failure_event now p) (store_at_test c w)
      /\ ((forall fe, In fe (events_of w) -> timestamp fe <= now) ->
          store_at_test c w = [])).
Proof.
  intros c window_seconds Hrange. subst c.
  assert (Hstore : store_at_test (call client now p) w =
            filter (newer_than (cutoff_at now w)) (events_of w)
              ++ (if now - window_seconds * 1000000 <? now
                  then [new_failure_event now p] else [])).
  { rewrite (store_at_test_in_range client now p w Hrange), filter_app.
    reflexivity. }
  rewrite Hstore. clear Hstore. split.
  - intros Hpos.
    destruct (Z.ltb_spec (now - window_seconds * 1000000) now) as [_|Hge];
      [|lia].
    split; [reflexivity|].
    rewrite length_app. cbn [List.length]. lia.
  - intros Hzero. unfold cutoff_at.
    fold window_seconds. rewrite Hzero.
    replace (now - 0 * 1000000) with now by lia.
    rewrite Z.ltb_irrefl, app_nil_r.
    split; [reflexivity|]. split.
    + intros Hin. apply filter_In in Hin as [_ Hnewer].
      unfold newer_than in Hnewer. cbn [timestamp new_failure_event] in Hnewer.
      rewrite Z.ltb_irrefl in Hnewer. discriminate.
    + intros Hold. induction (events_of w) as [|fe rest IH]; [reflexivity|].
      cbn [filter]. unfold newer_than at 1.
      destruct (Z.ltb_spec now (timestamp fe)) as [Hlt|_].
      * specialize (Hold fe (or_introl eq_refl)). lia.
      * apply IH. intros fe' Hin. apply Hold. now right.
Qed.

(** The theorem on a failure at second 80 met by a store of one event
    stamped at second 20, under a window of 60 seconds. *)
Lemma appended_event_and_its_own_prune_witness :
  (0 < window_seconds_of (alerting_config (self one_event_world)) ->
   store_at_test (call accepting_client 80000000 bare_payload) one_event_world
     = filter (newer_than (cutoff_at 80000000 one_event_world))
         (events_of one_event_world)
         ++ [new_failure_event 80000000 bare_payload]
   /\ 1 <= Z.of_nat
             (List.length
                (store_at_test (call accepting_client 80000000 bare_payload)
                   one_event_world)))
  /\ (window_seconds_of (alerting_config (self one_event_world)) = 0 ->
      store_at_test (call accepting_client 80000000 bare_payload)
        one_event_world
        = filter (newer_than 80000000) (events_of one_event_world)
      /\ ~ In (new_failure_event 80000000 bare_payload)
             (store_at_test (call accepting_client 80000000 bare_payload)
                one_event_world)
      /\ ((forall fe,
              In fe (events_of one_event_world) -> timestamp fe <= 80000000) ->
          store_at_test (call accepting_client 80000000 bare_payload)
            one_event_world = [])).
Proof.
  apply (appended_event_and_its_own_prune accepting_client 80000000
           bare_payload one_event_world).
  reflexivity.
Defined.

(** ** Further properties of the engine *)

Lemma filter_newer_twice (c1 c2 : datetime) (events : list FailureEvent) :
  filter (newer_than c2) (filter (newer_than c1) events)
    = filter (newer_than (Z.max c1 c2)) events.
Proof.
  induction events as [|fe rest IH]; [reflexivity|].
  cbn [filter].
  destruct (newer_than c1 fe) eqn:E1; cbn [filter];
    destruct (newer_than c2 fe) eqn:E2;
    destruct (newer_than (Z.max c1 c2) fe) eqn:Em;
    rewrite ?IH; try reflexivity;
    unfold newer_than in E1, E2, Em;
    rewrite ?Z.ltb_lt, ?Z.ltb_ge in E1, E2, Em; lia.
Qed.

(** X1. An ingestion that returns leaves fewer events in the store than
    the threshold (no event at all for a threshold below one): either the
    test failed on that many events, or the alert went out and the store
    was cleared. *)
Theorem returned_ingestion_leaves_store_below_threshold
  (client : AsyncHTTPHandler) (now : datetime) (kwargs : Logging.Kwargs)
  (w : World) :
  fst (async_log_failure_event client now kwargs w) = Returned tt ->
  Z.of_nat
    (List.length (events_of (snd (async_log_failure_event client now kwargs w))))
    < Z.max (threshold_of (alerting_config (self w))) 1.
Proof.
  destruct kwargs as [[p|]]; [|discriminate].
  pose proof (run_ingestion client now p w) as Hrun. cbn zeta in Hrun.
  change (call_kwargs (call client now p))
    with {| Logging.standard_logging_object := Some p |} in Hrun.
  rewrite Hrun. clear Hrun.
  destruct (cutoff_in_range now w) eqn:Hrange.
  - rewrite (cutoff_of_in_range now w Hrange), crossed_call, Hrange.
    cbn [andb].
    destruct (Z.leb_spec (threshold_of (alerting_config (self w)))
                (Z.of_nat
                   (List.length (store_at_test (call client now p) w))))
      as [Hge|Hlt].
    + destruct (client _); [|discriminate]. intros _. cbn. lia.
    + intros _. cbn [snd events_of with_failure_events self _failure_events].
      lia.
  - destruct (cutoff_of_out_of_range now w Hrange) as (e & -> & _).
    discriminate.
Qed.

(** The theorem on the second of three failures under a threshold of 3. *)
Lemma returned_ingestion_leaves_store_below_threshold_witness :
  Z.of_nat
    (List.length
       (events_of
          (snd (async_log_failure_event accepting_client 10000000
                  (kwargs_with bare_payload)
                  (ingest (at_second accepting_client 0 openai_500)
                     (fresh_world "k" (config 60 3)))))))
    < Z.max 3 1.
Proof.
  apply (returned_ingestion_leaves_store_below_threshold accepting_client
           10000000 (kwargs_with bare_payload)
           (ingest (at_second accepting_client 0 openai_500)
              (fresh_world "k" (config 60 3)))).
  reflexivity.
Defined.

Lemma settings_after_ingest c w :
  api_key (self (ingest c w)) = api_key (self w)
  /\ alerting_config (self (ingest c w)) = alerting_config (self w).
Proof.
  rewrite ingest_closed_form. destruct (crossed c w); split; reflexivity.
Qed.

(** X2. No sequence of ingestions changes the routing key or the alerting
    configuration of the engine, whatever the payloads, the clock and the
    HTTP client do. *)
Theorem engine_settings_never_change (calls : list Call) (w : World) :
  api_key (self (ingest_all calls w)) = api_key (self w)
  /\ alerting_config (self (ingest_all calls w)) = alerting_config (self w).
Proof.
  revert w. induction calls as [|c rest IH]; intros w; cbn [ingest_all].
  - split; reflexivity.
  - destruct (IH (ingest c w)) as [Hkey Hcfg].
    destruct (settings_after_ingest c w) as [Hkey' Hcfg'].
    split; congruence.
Qed.

(** X3. Pruning twice is pruning once at the later of the two cutoffs; in
    particular pruning again at the same or an earlier cutoff changes
    nothing. *)
Theorem prune_twice_is_prune_at_the_later_cutoff
  (c1 c2 : datetime) (w : World) :
  snd (_prune_failure_events c2 (snd (_prune_failure_events c1 w)))
    = snd (_prune_failure_events (Z.max c1 c2) w)
  /\ (c2 <= c1 ->
      snd (_prune_failure_events c2 (snd (_prune_failure_events c1 w)))
        = snd (_prune_failure_events c1 w)).
Proof.
  assert (Htwice :
            snd (_prune_failure_events c2 (snd (_prune_failure_events c1 w)))
              = snd (_prune_failure_events (Z.max c1 c2) w)).
  { rewrite !run_prune. cbn [snd]. rewrite ?run_prune. cbn [snd].
    unfold with_failure_events, events_of. cbn [self _failure_events
      api_key alerting_config posted].
    now rewrite filter_newer_twice. }
  split; [exact Htwice|].
  intros Hle. rewrite Htwice. now rewrite Z.max_l by lia.
Qed.

(** X8. The failure hook raises in three cases only: the standard
    logging object is missing (a [ValueError], see C4); or the cutoff of
    line 83 is out of range (an [OverflowError], raised before any prune,
    test or send); or the threshold test passed and the HTTP client
    raised, and then the exception is the client's own.  With a cutoff in
    range and below the threshold it never raises. *)
Theorem hook_raises_in_three_cases_only
  (client : AsyncHTTPHandler) (now : datetime) (kwargs : Logging.Kwargs)
  (w : World) (e : Exn) :
  let c := {| call_client := client; call_now := now;
              call_kwargs := kwargs |} in
  fst (async_log_failure_event client now kwargs w) = Raised e ->
  (Logging.standard_logging_object kwargs = None
   /\ e = ValueError "standard_logging_object is required for PagerDutyAlerting")
  \/ (has_payload c /\ cutoff_in_range now w = false
      /\ exn_class e = "OverflowError"%string
      /\ posted (ingest c w) = posted w)
  \/ (has_payload c /\ crossed c w = true
      /\ client (alert_for c w) = Raised e).
Proof.
  intros c. subst c. destruct kwargs as [[p|]].
  - intros Hraised. right.
    change {| call_client := client; call_now := now; call_kwargs := _ |}
      with (call client now p).
    pose proof (run_ingestion client now p w) as Hrun. cbn zeta in Hrun.
    change (call_kwargs (call client now p))
      with {| Logging.standard_logging_object := Some p |} in Hrun.
    rewrite Hrun in Hraised. clear Hrun.
    assert (Hpayload : has_payload (call client now p)) by now exists p.
    destruct (cutoff_in_range now w) eqn:Hrange.
    + right. rewrite (cutoff_of_in_range now w Hrange) in Hraised.
      split; [exact Hpayload|].
      destruct (crossed (call client now p) w); [|discriminate].
      split; [reflexivity|].
      destruct (client _) as [response|e']; [discriminate|].
      cbn in Hraised. congruence.
    + left.
      destruct (cutoff_of_out_of_range now w Hrange) as (e' & He' & Hclass).
      rewrite He' in Hraised. cbn in Hraised. injection Hraised as <-.
      split; [exact Hpayload|]. split; [reflexivity|].
      split; [exact Hclass|].
      rewrite posted_after_ingest, crossed_call, Hrange. reflexivity.
  - intros [= <-]. left. split; reflexivity.
Qed.

(** The theorem on a first failure whose alert the client refuses. *)
Lemma hook_raises_in_three_cases_only_witness :
  (Logging.standard_logging_object (kwargs_with bare_payload) = None
   /\ mkExn "HTTPStatusError" "502 Bad Gateway"
      = ValueError "standard_logging_object is required for PagerDutyAlerting")
  \/ (has_payload (at_second failing_client 0 bare_payload)
      /\ cutoff_in_range 0 (fresh_world "k" default_config) = false
      /\ exn_class (mkExn "HTTPStatusError" "502 Bad Gateway")
         = "OverflowError"%string
      /\ posted (ingest (at_second failing_client 0 bare_payload)
                   (fresh_world "k" default_config))
         = posted (fresh_world "k" default_config))
  \/ (has_payload (at_second failing_client 0 bare_payload)
      /\ crossed (at_second failing_client 0 bare_payload)
           (fresh_world "k" default_config) = true
      /\ failing_client
           (alert_for (at_second failing_client 0 bare_payload)
              (fresh_world "k" default_config))
         = Raised (mkExn "HTTPStatusError" "502 Bad Gateway")).
Proof.
  apply (hook_raises_in_three_cases_only failing_client 0
           (kwargs_with bare_payload) (fresh_world "k" default_config)
           (mkExn "HTTPStatusError" "502 Bad Gateway")).
  reflexivity.
Defined.

(** The tested store and the test, for any call. *)
Lemma store_at_test_any c w :
  store_at_test c w =
    match event_of c with
    | Some fe =>
        if cutoff_in_range (call_now c) w then
          filter (newer_than (cutoff_at (call_now c) w)) (events_of w ++ [fe])
        else events_of w ++ [fe]
    | None => events_of w
    end.
Proof.
  destruct c as [client now [[p|]]]; unfold event_of; cbn [call_kwargs
    call_now Logging.standard_logging_object].
  - apply (store_at_test_call client now p w).
  - reflexivity.
Qed.

Lemma crossed_any c w :
  crossed c w =
    match event_of c with
    | Some _ =>
        cutoff_in_range (call_now c) w
        && (threshold_of (alerting_config (self w))
              <=? Z.of_nat (List.length (store_at_test c w)))
    | None => false
    end.
Proof.
  destruct c as [client now [[p|]]]; unfold event_of; cbn [call_kwargs
    call_now Logging.standard_logging_object].
  - apply (crossed_call client now p w).
  - reflexivity.
Qed.

Lemma events_after_ingest c w :
  events_of (ingest c w) = [] \/ events_of (ingest c w) = store_at_test c w.
Proof.
  rewrite ingest_closed_form. destruct (crossed c w).
  - destruct (call_client c _); [left|right]; reflexivity.
  - right. reflexivity.
Qed.

Lemma chronological_filter (keep : FailureEvent -> bool) events :
  chronological events -> chronological (filter keep events).
Proof.
  unfold chronological.
  induction 1 as [|fe rest Hrest IH Hhead]; cbn [filter]; [constructor|].
  destruct (keep fe); [|exact IH].
  constructor; [exact IH|].
  rewrite Forall_forall in *. intros x Hx. apply filter_In in Hx as [Hx _].
  now apply Hhead.
Qed.

Lemma chronological_append events fe :
  chronological events ->
  Forall (fun old => timestamp old <= timestamp fe) events ->
  chronological (events ++ [fe]).
Proof.
  unfold chronological.
  induction 1 as [|x rest Hrest IH Hhead]; intros Hbound; cbn [app].
  - constructor; constructor.
  - inversion Hbound as [|? ? Hx Hrest']; subst.
    constructor; [now apply IH|].
    apply Forall_app. split; [exact Hhead|]. now constructor.
Qed.

Lemma Forall_filter_kept {A : Type} (P : A -> Prop) (keep : A -> bool) l :
  Forall P l -> Forall P (filter keep l).
Proof.
  rewrite !Forall_forall. intros H x Hx. apply filter_In in Hx as [Hx _].
  now apply H.
Qed.

Lemma Forall_not_after (t t' : datetime) (events : list FailureEvent) :
  t <= t' ->
  Forall (fun fe => timestamp fe <= t) events ->
  Forall (fun fe => timestamp fe <= t') events.
Proof.
  intros Hle. apply Forall_impl. intros fe. lia.
Qed.

(** One ingestion keeps the store chronological and not ahead of the
    clock. *)
Lemma ingest_keeps_chronological c t w :
  chronological (events_of w) ->
  Forall (fun fe => timestamp fe <= t) (events_of w) ->
  t <= call_now c ->
  chronological (events_of (ingest c w))
  /\ Forall (fun fe => timestamp fe <= call_now c) (events_of (ingest c w)).
Proof.
  intros Hsorted Hbound Hclock.
  pose proof (Forall_not_after t (call_now c) _ Hclock Hbound) as Hbound'.
  assert (Htest : chronological (store_at_test c w)
                  /\ Forall (fun fe => timestamp fe <= call_now c)
                       (store_at_test c w)).
  { rewrite store_at_test_any. unfold event_of.
    destruct (Logging.standard_logging_object (call_kwargs c)) as [p|];
      [|now split].
    assert (Happended :
              chronological
                (events_of w ++ [new_failure_event (call_now c) p])
              /\ Forall (fun fe => timestamp fe <= call_now c)
                   (events_of w ++ [new_failure_event (call_now c) p])).
    { split.
      - apply chronological_append; assumption.
      - apply Forall_app. split; [exact Hbound'|].
        constructor; [cbn; lia | constructor]. }
    destruct Happended as [Hsorted' Hbounded].
    destruct (cutoff_in_range (call_now c) w); [|now split].
    split.
    - now apply chronological_filter.
    - now apply Forall_filter_kept. }
  destruct (events_after_ingest c w) as [-> | ->].
  - split; constructor.
  - exact Htest.
Qed.

(** X4. The store stays in chronological order: from an ordered store
    that is not ahead of the clock, any sequence of ingestions whose clock
    readings never go back leaves an ordered store. *)
Theorem store_stays_chronological
  (calls : list Call) (t : datetime) (w : World) :
  chronological (events_of w) ->
  Forall (fun fe => timestamp fe <= t) (events_of w) ->
  clock_never_goes_back t calls ->
  chronological (events_of (ingest_all calls w)).
Proof.
  revert t w.
  induction calls as [|c rest IH]; intros t w Hsorted Hbound Hclock;
    cbn [ingest_all].
  - exact Hsorted.
  - destruct Hclock as [Hnow Hrest].
    destruct (ingest_keeps_chronological c t w Hsorted Hbound Hnow)
      as [Hsorted' Hbound'].
    exact (IH (call_now c) (ingest c w) Hsorted' Hbound' Hrest).
Qed.

(** The theorem on two failures, ten seconds apart, under a threshold
    of 3. *)
Lemma store_stays_chronological_witness :
  chronological
    (events_of
       (ingest_all (firstn 2 three_failures) (fresh_world "k" (config 60 3)))).
Proof.
  apply (store_stays_chronological (firstn 2 three_failures) 0
           (fresh_world "k" (config 60 3))).
  - constructor.
  - constructor.
  - cbn. lia.
Defined.

(** X5. On a chronological store pruning drops a prefix: the survivors
    are the store without its first [k] events, and those [k] are the
    ones stamped at or before the cutoff. *)
Theorem prune_of_chronological_store_drops_a_prefix
  (cutoff : datetime) (w : World) :
  chronological (events_of w) ->
  exists k : nat,
    events_of (snd (_prune_failure_events cutoff w)) = skipn k (events_of w)
    /\ Forall (fun fe => timestamp fe <= cutoff) (firstn k (events_of w))
    /\ Forall (fun fe => cutoff < timestamp fe) (skipn k (events_of w)).
Proof.
  rewrite run_prune.
  cbn [snd events_of with_failure_events self _failure_events].
  fold (events_of w). unfold chronological.
  induction 1 as [|fe rest Hrest IH Hhead].
  - exists 0%nat. repeat split; constructor.
  - cbn [filter]. unfold newer_than at 1.
    destruct (Z.ltb_spec cutoff (timestamp fe)) as [Hnew|Hold].
    + exists 0%nat. cbn [skipn firstn].
      assert (Hall : Forall (fun x => cutoff < timestamp x) rest).
      { revert Hhead. apply Forall_impl. intros x. lia. }
      assert (Hsame : filter (newer_than cutoff) rest = rest).
      { clear - Hall. induction Hall as [|x l Hx Hl IHl]; [reflexivity|].
        cbn [filter]. unfold newer_than at 1.
        destruct (Z.ltb_spec cutoff (timestamp x)); [|lia].
        now rewrite IHl. }
      rewrite Hsame. split; [reflexivity|]. split; constructor; assumption.
    + destruct IH as (k & Hkept & Hdropped & Hsurvive).
      exists (S k). cbn [skipn firstn].
      split; [exact Hkept|]. split; [now constructor | exact Hsurvive].
Qed.

(** The theorem on a store of seven events stamped 1 to 7. *)
Lemma prune_of_chronological_store_drops_a_prefix_witness :
  exists k : nat,
    events_of
      (snd (_prune_failure_events 3
              (with_failure_events (fresh_world "k" (config 60 10))
                 seven_events)))
      = skipn k seven_events
    /\ Forall (fun fe => timestamp fe <= 3) (firstn k seven_events)
    /\ Forall (fun fe => 3 < timestamp fe) (skipn k seven_events).
Proof.
  apply (prune_of_chronological_store_drops_a_prefix 3
           (with_failure_events (fresh_world "k" (config 60 10))
              seven_events)).
  unfold chronological.
  repeat (constructor; [|repeat (constructor; [cbn; lia|]); constructor]).
  constructor.
Defined.

(** With a positive window and a threshold of at most one, an ingestion
    on an empty store alerts for its own event alone. *)
Lemma cutoff_in_range_same_config now w w' :
  alerting_config (self w') = alerting_config (self w) ->
  cutoff_in_range now w' = cutoff_in_range now w.
Proof.
  intros Hcfg. unfold cutoff_in_range, cutoff_of. now rewrite Hcfg.
Qed.

Lemma lone_ingestion c w :
  0 < window_seconds_of (alerting_config (self w)) ->
  threshold_of (alerting_config (self w)) <= 1 ->
  events_of w = [] ->
  has_payload c ->
  cutoff_in_range (call_now c) w = true ->
  store_at_test c w =
    match event_of c with Some fe => [fe] | None => [] end
  /\ crossed c w = true
  /\ alert_for c w = lone_alert w c.
Proof.
  intros Hwindow Hthreshold Hempty [p Hp] Hrange.
  assert (Hstore : store_at_test c w =
            match event_of c with Some fe => [fe] | None => [] end).
  { rewrite store_at_test_any. unfold event_of. rewrite Hp, Hempty, Hrange.
    cbn [app filter]. unfold newer_than, cutoff_at.
    cbn [timestamp new_failure_event].
    destruct (Z.ltb_spec
                (call_now c
                   - window_seconds_of (alerting_config (self w)) * 1000000)
                (call_now c)); [reflexivity|lia]. }
  split; [exact Hstore|].
  split.
  - rewrite crossed_any, Hstore, Hrange. unfold event_of. rewrite Hp.
    cbn [List.length andb]. apply Z.leb_le. lia.
  - unfold alert_for, lone_alert. rewrite Hstore. unfold event_of.
    rewrite Hp. reflexivity.
Qed.

(** X6. With a positive window and a threshold of one or less (the
    default configuration), an engine whose alerts are accepted pages on
    every failure: from an empty store, for a sequence of ingestions that
    all carry a payload and whose cutoffs are all in range, each ingestion
    sends one alert that counts one failure and lists that failure alone,
    and the store is empty again afterwards. *)
Theorem every_failure_alerts_alone_under_threshold_one
  (calls : list Call) (w : World) :
  0 < window_seconds_of (alerting_config (self w)) ->
  threshold_of (alerting_config (self w)) <= 1 ->
  events_of w = [] ->
  Forall has_payload calls ->
  Forall (fun c => cutoff_in_range (call_now c) w = true) calls ->
  Forall client_returns calls ->
  posted (ingest_all calls w) = posted w ++ map (lone_alert w) calls
  /\ events_of (ingest_all calls w) = [].
Proof.
  intros Hwindow Hthreshold.
  assert (Hgen : forall w',
             api_key (self w') = api_key (self w) ->
             alerting_config (self w') = alerting_config (self w) ->
             events_of w' = [] ->
             Forall has_payload calls ->
             Forall (fun c => cutoff_in_range (call_now c) w = true) calls ->
             Forall client_returns calls ->
             posted (ingest_all calls w') = posted w' ++ map (lone_alert w) calls
             /\ events_of (ingest_all calls w') = []).
  { induction calls as [|c rest IH];
      intros w' Hkey Hcfg Hempty Hpayload Hranges Hclient;
      cbn [ingest_all map].
    - split; [now rewrite app_nil_r | exact Hempty].
    - inversion Hpayload as [|? ? Hc Hrest]; subst.
      inversion Hranges as [|? ? Hrange Hranges']; subst.
      inversion Hclient as [|? ? Hret Hrets]; subst.
      assert (Hw' : 0 < window_seconds_of (alerting_config (self w'))
                    /\ threshold_of (alerting_config (self w')) <= 1)
        by (rewrite Hcfg; split; assumption).
      destruct Hw' as [Hwindow' Hthreshold'].
      rewrite <- (cutoff_in_range_same_config (call_now c) w w' Hcfg)
        in Hrange.
      destruct (lone_ingestion c w' Hwindow' Hthreshold' Hempty Hc Hrange)
        as (_ & Hcrossed & Halert).
      assert (Hsame : lone_alert w' c = lone_alert w c)
        by (unfold lone_alert; now rewrite Hkey, Hcfg).
      destruct (settings_after_ingest c w') as [Hkey' Hcfg'].
      assert (Hstep : posted (ingest c w') = posted w' ++ [lone_alert w c]
                      /\ events_of (ingest c w') = []).
      { rewrite ingest_closed_form, Hcrossed, Halert, Hsame.
        destruct (Hret (lone_alert w c)) as [response ->].
        split; reflexivity. }
      destruct Hstep as [Hposted Hcleared].
      destruct (IH (ingest c w')) as [Hposted' Hcleared'];
        [congruence | congruence | assumption | assumption | assumption
         | assumption |].
      split; [|exact Hcleared'].
      rewrite Hposted', Hposted. now rewrite <- app_assoc. }
  intros Hempty Hpayload Hranges Hclient.
  now apply Hgen.
Qed.

(** The theorem on three failures under the default configuration. *)
Lemma every_failure_alerts_alone_under_threshold_one_witness :
  posted (ingest_all three_failures (fresh_world "k" default_config))
    = posted (fresh_world "k" default_config)
        ++ map (lone_alert (fresh_world "k" default_config)) three_failures
  /\ events_of (ingest_all three_failures (fresh_world "k" default_config))
     = [].
Proof.
  apply (every_failure_alerts_alone_under_threshold_one three_failures
           (fresh_world "k" default_config)).
  - cbn. lia.
  - cbn. lia.
  - reflexivity.
  - repeat constructor; eexists; reflexivity.
  - repeat constructor.
  - repeat constructor; intros request; eexists; reflexivity.
Defined.

Lemma cutoff_in_range_zero_window now w :
  window_seconds_of (alerting_config (self w)) = 0 ->
  cutoff_in_range now w = is_datetime now.
Proof.
  intros Hwindow.
  unfold cutoff_in_range, cutoff_of, timedelta_seconds, datetime_sub.
  rewrite Hwindow. cbn.
  replace (now - 0) with now by lia.
  destruct (is_datetime now); reflexivity.
Qed.

(** X7. With a window of zero seconds and a threshold of one or more the
    engine is mute: from an empty store no sequence of ingestions sends an
    alert, whatever the payloads and the clock readings (each a
    [datetime]), and the store stays empty. *)
Theorem zero_window_engine_is_mute (calls : list Call) (w : World) :
  window_seconds_of (alerting_config (self w)) = 0 ->
  1 <= threshold_of (alerting_config (self w)) ->
  events_of w = [] ->
  Forall (fun c => is_datetime (call_now c) = true) calls ->
  posted (ingest_all calls w) = posted w
  /\ events_of (ingest_all calls w) = [].
Proof.
  revert w.
  induction calls as [|c rest IH];
    intros w Hwindow Hthreshold Hempty Hclock; cbn [ingest_all].
  - split; [reflexivity | exact Hempty].
  - inversion Hclock as [|? ? Hnow Hclock']; subst.
    assert (Hrange : cutoff_in_range (call_now c) w = true)
      by now rewrite cutoff_in_range_zero_window.
    assert (Hstore : store_at_test c w = []).
    { rewrite store_at_test_any, Hempty, Hrange. unfold event_of.
      destruct (Logging.standard_logging_object (call_kwargs c)) as [p|];
        [|reflexivity].
      cbn [app filter]. unfold newer_than, cutoff_at.
      rewrite Hwindow. cbn [timestamp new_failure_event].
      replace (call_now c - 0 * 1000000) with (call_now c) by lia.
      now rewrite Z.ltb_irrefl. }
    assert (Hquiet : crossed c w = false).
    { rewrite crossed_any, Hstore.
      destruct (event_of c); [|reflexivity].
      cbn [List.length]. apply andb_false_iff. right. apply Z.leb_gt. lia. }
    assert (Hstep : ingest c w = with_failure_events w []).
    { rewrite ingest_closed_form, Hquiet, Hstore. reflexivity. }
    rewrite Hstep.
    destruct (IH (with_failure_events w [])) as [Hposted Hcleared];
      [exact Hwindow | exact Hthreshold | reflexivity | exact Hclock' |].
    split; [exact Hposted | exact Hcleared].
Qed.

(** The theorem on three failures with a window of zero and a threshold
    of 1. *)
Lemma zero_window_engine_is_mute_witness :
  posted (ingest_all three_failures (fresh_world "k" (config 0 1)))
    = posted (fresh_world "k" (config 0 1))
  /\ events_of (ingest_all three_failures (fresh_world "k" (config 0 1))) = [].
Proof.
  apply (zero_window_engine_is_mute three_failures
           (fresh_world "k" (config 0 1))).
  - reflexivity.
  - cbn. lia.
  - reflexivity.
  - repeat constructor.
Defined.

Lemma filter_keeps_all (cutoff : datetime) (events : list FailureEvent) :
  Forall (fun fe => cutoff < timestamp fe) events ->
  filter (newer_than cutoff) events = events.
Proof.
  induction 1 as [|fe rest Hfe Hrest IH]; [reflexivity|].
  cbn [filter]. unfold newer_than at 1.
  destruct (Z.ltb_spec cutoff (timestamp fe)); [|lia].
  now rewrite IH.
Qed.

(** X9. A failed send loses no event and is retried by the next failure:
    when the threshold test passed and the HTTP client raised, the next
    ingestion, if its cutoff is in range and none of the kept events has
    left its window, tests the same events plus its own and passes
    again. *)
Theorem failed_send_is_retried_by_the_next_failure
  (client client' : AsyncHTTPHandler) (now now' : datetime)
  (p p' : Logging.StandardLoggingPayload) (w : World) (e : Exn) :
  let c := call client now p in
  let c' := call client' now' p' in
  crossed c w = true ->
  client (alert_for c w) = Raised e ->
  0 < window_seconds_of (alerting_config (self w)) ->
  cutoff_in_range now' w = true ->
  Forall (fun fe => cutoff_at now' w < timestamp fe) (store_at_test c w) ->
  store_at_test c' (ingest c w)
    = store_at_test c w ++ [new_failure_event now' p']
  /\ crossed c' (ingest c w) = true
  /\ posted (ingest c' (ingest c w))
     = posted w ++ [alert_for c w; alert_for c' (ingest c w)].
Proof.
  intros c c' Hcrossed Hraised Hwindow Hrange' Hfresh.
  assert (Hstep : ingest c w =
            with_failure_events
              (with_posted w (posted w ++ [alert_for c w]))
              (store_at_test c w)).
  { rewrite ingest_closed_form, Hcrossed.
    change (call_client c) with client. now rewrite Hraised. }
  assert (Hstore : store_at_test c' (ingest c w)
                   = store_at_test c w ++ [new_failure_event now' p']).
  { subst c'. rewrite store_at_test_call, Hstep.
    change (cutoff_in_range now' _) with (cutoff_in_range now' w).
    rewrite Hrange'.
    cbn [events_of with_failure_events with_posted self _failure_events].
    change (cutoff_at now' _) with (cutoff_at now' w).
    rewrite filter_app, (filter_keeps_all _ _ Hfresh). f_equal.
    cbn [filter]. unfold newer_than, cutoff_at.
    cbn [timestamp new_failure_event].
    destruct (Z.ltb_spec
                (now' - window_seconds_of (alerting_config (self w)) * 1000000)
                now'); [reflexivity|lia]. }
  assert (Hagain : crossed c' (ingest c w) = true).
  { subst c'. rewrite crossed_call. fold (call client' now' p').
    rewrite Hstore, length_app.
    destruct (settings_after_ingest c w) as [_ Hcfg].
    rewrite (cutoff_in_range_same_config now' w (ingest c w) Hcfg), Hrange'.
    rewrite Hcfg. cbn [andb].
    rewrite (crossed_call client now p w : crossed c w = _) in Hcrossed.
    apply andb_prop in Hcrossed as [_ Hcrossed].
    apply Z.leb_le in Hcrossed. apply Z.leb_le. fold c in Hcrossed. lia. }
  split; [exact Hstore|]. split; [exact Hagain|].
  rewrite posted_after_ingest, Hagain, posted_after_ingest, Hcrossed.
  now rewrite <- app_assoc.
Qed.

(** The theorem on two failures one second apart, the first answered by a
    client that raises. *)
Lemma failed_send_is_retried_by_the_next_failure_witness :
  store_at_test (call accepting_client 1000000 openai_500)
    (ingest (call failing_client 0 bare_payload)
       (fresh_world "k" default_config))
    = store_at_test (call failing_client 0 bare_payload)
        (fresh_world "k" default_config)
        ++ [new_failure_event 1000000 openai_500]
  /\ crossed (call accepting_client 1000000 openai_500)
       (ingest (call failing_client 0 bare_payload)
          (fresh_world "k" default_config)) = true
  /\ posted
       (ingest (call accepting_client 1000000 openai_500)
          (ingest (call failing_client 0 bare_payload)
             (fresh_world "k" default_config)))
     = posted (fresh_world "k" default_config)
         ++ [alert_for (call failing_client 0 bare_payload)
               (fresh_world "k" default_config);
             alert_for (call accepting_client 1000000 openai_500)
               (ingest (call failing_client 0 bare_payload)
                  (fresh_world "k" default_config))].
Proof.
  apply (failed_send_is_retried_by_the_next_failure failing_client
           accepting_client 0 1000000 bare_payload openai_500
           (fresh_world "k" default_config)
           (mkExn "HTTPStatusError" "502 Bad Gateway")).
  - reflexivity.
  - reflexivity.
  - cbn. lia.
  - reflexivity.
  - repeat constructor.
Defined.

Lemma slice_from_back_snoc {A : Type} (n : Z) (l : list A) (x : A) :
  2 <= n ->
  slice_from (- n) (l ++ [x]) = slice_from (- (n - 1)) l ++ [x].
Proof.
  intros Hn. rewrite !slice_from_back by lia.
  rewrite length_app. cbn [List.length].
  rewrite skipn_app.
  replace (List.length l + 1 - Z.to_nat n)%nat
    with (List.length l - Z.to_nat (n - 1))%nat by lia.
  replace (List.length l - Z.to_nat (n - 1) - List.length l)%nat
    with 0%nat by lia.
  reflexivity.
Qed.

(** With a positive window the appended event closes the tested store. *)
Lemma store_at_test_positive_window client now p w :
  cutoff_in_range now w = true ->
  0 < window_seconds_of (alerting_config (self w)) ->
  store_at_test (call client now p) w =
    filter (newer_than (cutoff_at now w)) (events_of w)
      ++ [new_failure_event now p].
Proof.
  intros Hrange Hwindow.
  rewrite (store_at_test_in_range client now p w Hrange), filter_app. f_equal.
  cbn [filter]. unfold newer_than, cutoff_at.
  cbn [timestamp new_failure_event].
  destruct (Z.ltb_spec
              (now - window_seconds_of (alerting_config (self w)) * 1000000)
              now); [reflexivity|lia].
Qed.

(** X10. With a positive window, the digest of an alert ends with the
    line of the failure that triggered it, after at most four lines of
    earlier failures. *)
Theorem alert_digest_ends_with_the_triggering_failure
  (client : AsyncHTTPHandler) (now : datetime)
  (p : Logging.StandardLoggingPayload) (w : World) :
  let c := call client now p in
  0 < window_seconds_of (alerting_config (self w)) ->
  crossed c w = true ->
  exists earlier : list string,
    posted (ingest c w) =
      posted w ++
        [alert_request (api_key (self w))
           (alert_message (List.length (store_at_test c w))
              (window_seconds_of (alerting_config (self w))))
           (earlier ++ [summary_line (new_failure_event now p)])]
    /\ (List.length earlier <= 4)%nat.
Proof.
  intros c Hwindow Hcrossed.
  pose proof (store_at_test_positive_window client now p w
                (crossed_in_range client now p w Hcrossed) Hwindow) as Hstore.
  fold c in Hstore.
  exists (map summary_line
            (slice_from (-4)
               (filter (newer_than (cutoff_at now w)) (events_of w)))).
  split.
  - rewrite posted_after_ingest, Hcrossed. unfold alert_for.
    rewrite Hstore at 2.
    rewrite (slice_from_back_snoc 5) by lia.
    now rewrite map_app.
  - rewrite length_map, (slice_from_back 4) by lia.
    rewrite length_skipn. lia.
Qed.

(** The theorem on the third of three failures under a threshold of 3. *)
Lemma alert_digest_ends_with_the_triggering_failure_witness :
  exists earlier : list string,
    posted
      (ingest (call accepting_client 20000000 openai_500)
         (ingest_all (firstn 2 three_failures)
            (fresh_world "k" (config 60 3))))
    = posted
        (ingest_all (firstn 2 three_failures) (fresh_world "k" (config 60 3)))
        ++ [alert_request "k"
              (alert_message
                 (List.length
                    (store_at_test (call accepting_client 20000000 openai_500)
                       (ingest_all (firstn 2 three_failures)
                          (fresh_world "k" (config 60 3)))))
                 60)
              (earlier
                 ++ [summary_line (new_failure_event 20000000 openai_500)])]
    /\ (List.length earlier <= 4)%nat.
Proof.
  apply (alert_digest_ends_with_the_triggering_failure accepting_client
           20000000 openai_500
           (ingest_all (firstn 2 three_failures)
              (fresh_world "k" (config 60 3)))).
  - cbn. lia.
  - reflexivity.
Defined.

(** X11. The constructor returns an engine exactly when the key is set and
    not empty and the inherited initialiser returns.  A missing key is
    reported before the inherited initialiser is consulted; with a key, an
    exception of the inherited initialiser is the outcome of the
    construction. *)
Theorem construction_succeeds_exactly_with_key_and_base
  (getenv : string -> option string) (cfg : AlertingConfig)
  (super_init : Result unit) :
  ((exists engine, __init__ getenv cfg super_init = Returned engine)
   <-> truthy (getenv "PAGERDUTY_API_KEY"%string) = true
       /\ exists u, super_init = Returned u)
  /\ (truthy (getenv "PAGERDUTY_API_KEY"%string) = false ->
      __init__ getenv cfg super_init
        = Raised (ValueError "PAGERDUTY_API_KEY is not set"))
  /\ (forall e,
        truthy (getenv "PAGERDUTY_API_KEY"%string) = true ->
        super_init = Raised e ->
        __init__ getenv cfg super_init = Raised e).
Proof.
  unfold __init__.
  destruct (getenv "PAGERDUTY_API_KEY"%string) as [key|]; cbn [truthy].
  - destruct (String.eqb key "") eqn:Hkey; cbn [negb].
    + split; [|split].
      * split; [intros [engine [=]] | intros [[=] _]].
      * reflexivity.
      * intros e [=].
    + split; [|split].
      * destruct super_init as [u|e].
        -- split; [intros _; split; [reflexivity | now exists u]|].
           intros _. eexists. reflexivity.
        -- split; [intros [engine [=]] | intros [_ [u [=]]]].
      * intros [=].
      * now intros e _ ->.
  - split; [|split].
    + split; [intros [engine [=]] | intros [[=] _]].
    + reflexivity.
    + intros e [=].
Qed.

Lemma summary_line_without_identity fe :
  summary_line (without_identity fe) = summary_line fe.
Proof. reflexivity. Qed.

Lemma filter_without_identity cutoff events :
  map without_identity (filter (newer_than cutoff) events)
    = filter (newer_than cutoff) (map without_identity events).
Proof.
  induction events as [|fe rest IH]; [reflexivity|].
  cbn [filter map].
  change (newer_than cutoff (without_identity fe)) with (newer_than cutoff fe).
  destruct (newer_than cutoff fe); cbn [map]; now rewrite IH.
Qed.

Lemma slice_from_map {A B : Type} (f : A -> B) (start : Z) (l : list A) :
  map f (slice_from start l) = slice_from start (map f l).
Proof.
  unfold slice_from. now rewrite length_map, skipn_map.
Qed.

Lemma digest_without_identity start events events' :
  map without_identity events = map without_identity events' ->
  map summary_line (slice_from start events)
    = map summary_line (slice_from start events').
Proof.
  intros Hsame.
  assert (Hline : forall l,
             map summary_line l = map summary_line (map without_identity l)).
  { intros l. rewrite map_map. apply map_ext. intros fe.
    now rewrite summary_line_without_identity. }
  rewrite !slice_from_map, (Hline events), (Hline events').
  now rewrite Hsame.
Qed.

(** Two worlds that differ in the identity fields of their events only. *)
Lemma ingest_without_metadata c w w' :
  api_key (self w) = api_key (self w') ->
  alerting_config (self w) = alerting_config (self w') ->
  posted w = posted w' ->
  map without_identity (events_of w) = map without_identity (events_of w') ->
  posted (ingest c w) = posted (ingest (without_metadata c) w')
  /\ map without_identity (events_of (ingest c w))
     = map without_identity (events_of (ingest (without_metadata c) w')).
Proof.
  intros Hkey Hcfg Hposted Hevents.
  set (c' := without_metadata c).
  assert (Hstore : map without_identity (store_at_test c w)
                   = map without_identity (store_at_test c' w')).
  { rewrite !store_at_test_any. subst c'. unfold event_of, without_metadata.
    cbn [call_kwargs call_now Logging.standard_logging_object].
    destruct (Logging.standard_logging_object (call_kwargs c)) as [p|];
      [|exact Hevents].
    rewrite (cutoff_in_range_same_config (call_now c) w' w Hcfg).
    unfold cutoff_at. rewrite <- Hcfg.
    destruct (cutoff_in_range (call_now c) w').
    - rewrite !filter_without_identity, !map_app, Hevents. reflexivity.
    - rewrite !map_app, Hevents. reflexivity. }
  assert (Hlen : List.length (store_at_test c w)
                 = List.length (store_at_test c' w')).
  { rewrite <- (length_map without_identity (store_at_test c w)), Hstore.
    apply length_map. }
  assert (Hcrossed : crossed c w = crossed c' w').
  { rewrite !crossed_any, Hlen, Hcfg. subst c'.
    rewrite (cutoff_in_range_same_config (call_now c) w' w Hcfg).
    unfold event_of, without_metadata.
    cbn [call_kwargs call_now Logging.standard_logging_object].
    destruct (Logging.standard_logging_object (call_kwargs c));
      reflexivity. }
  assert (Halert : alert_for c w = alert_for c' w').
  { unfold alert_for.
    rewrite (digest_without_identity _ _ _ Hstore), Hlen, Hkey, Hcfg.
    reflexivity. }
  rewrite !ingest_closed_form, <- Hcrossed, <- Halert.
  change (call_client c') with (call_client c).
  destruct (crossed c w).
  - cbn [posted with_failure_events with_posted events_of self
         _failure_events].
    rewrite Hposted. split; [reflexivity|].
    destruct (call_client c _); [reflexivity | exact Hstore].
  - cbn [posted with_failure_events events_of self _failure_events].
    split; [exact Hposted | exact Hstore].
Qed.

(** X12. The [user_api_key_*] fields never reach PagerDuty: a sequence of
    ingestions sends the same requests when the metadata is removed from
    every payload and the identity fields are blanked in the stored
    events. *)
Theorem alerts_do_not_depend_on_identity_fields
  (calls : list Call) (w : World) :
  posted (ingest_all calls w)
    = posted
        (ingest_all (map without_metadata calls)
           (with_failure_events w (map without_identity (events_of w)))).
Proof.
  assert (Hgen : forall w w',
             api_key (self w) = api_key (self w') ->
             alerting_config (self w) = alerting_config (self w') ->
             posted w = posted w' ->
             map without_identity (events_of w)
               = map without_identity (events_of w') ->
             posted (ingest_all calls w)
               = posted (ingest_all (map without_metadata calls) w')).
  { induction calls as [|c rest IH]; intros w1 w2 Hkey Hcfg Hposted Hevents;
      cbn [ingest_all map].
    - exact Hposted.
    - destruct (ingest_without_metadata c w1 w2 Hkey Hcfg Hposted Hevents)
        as [Hposted' Hevents'].
      destruct (settings_after_ingest c w1) as [Hk1 Hc1].
      destruct (settings_after_ingest (without_metadata c) w2) as [Hk2 Hc2].
      apply IH; congruence. }
  apply Hgen; try reflexivity.
  cbn [events_of with_failure_events self _failure_events].
  rewrite map_map. apply map_ext. reflexivity.
Qed.

(** ** The Infinity rerank response: properties *)

Example rerank_sample_response :
  @InfinityRerank.transform_rerank_response InfinityRerank.plain_models
    InfinityRerank.sample_response "uuid"
  = inr (InfinityRerank.JStr "infinity-1", InfinityRerank.sample_results,
         ([("prompt_tokens"%string, InfinityRerank.JInt 12);
           ("total_tokens"%string, InfinityRerank.JInt 12)],
          (InfinityRerank.JInt 12, InfinityRerank.JInt 0))).
Proof. reflexivity. Qed.

Example rerank_without_total_tokens :
  @InfinityRerank.transform_rerank_response InfinityRerank.plain_models
    InfinityRerank.response_without_total "uuid"
  = inr (InfinityRerank.JStr "uuid", InfinityRerank.JList [],
         ([("prompt_tokens"%string, InfinityRerank.JInt 7)],
          (InfinityRerank.JInt 7, InfinityRerank.JInt (-7)))).
Proof. reflexivity. Qed.

Example rerank_without_results :
  @InfinityRerank.transform_rerank_response InfinityRerank.plain_models
    InfinityRerank.response_without_results "uuid"
  = inl (InfinityRerank.ValueError "No results found in the response=<body>").
Proof. reflexivity. Qed.

Example rerank_gateway_error :
  @InfinityRerank.transform_rerank_response InfinityRerank.plain_models
    InfinityRerank.gateway_error_page "uuid"
  = inl (InfinityRerank.InfinityError "<html>502 Bad Gateway</html>" 502).
Proof. reflexivity. Qed.

Section RerankFacts.

Import InfinityRerank.
Context {models : RerankModels}.

(** Everything a returned response went through. *)
Lemma transform_returned (raw_response : HttpxResponse) (uuid4 : string)
  (response : Response) :
  transform_rerank_response raw_response uuid4 = inr response ->
  exists entries usage p t billed tokens meta results,
    json raw_response = Some (JDict entries)
    /\ usage_of entries = JDict usage
    /\ RerankBilledUnits usage = inr billed
    /\ as_int (prompt_tokens_of usage) = Some p
    /\ as_int (total_tokens_of usage) = Some t
    /\ RerankTokens (prompt_tokens_of usage) (JInt (t - p)) = inr tokens
    /\ RerankResponseMeta billed tokens = inr meta
    /\ lookup "results" entries = Some results
    /\ results <> JNull
    /\ RerankResponse
         (or_else (get_default (lookup "id" entries) JNull) (JStr uuid4))
         results meta = inr response.
Proof.
  unfold transform_rerank_response.
  destruct (json raw_response) as [body|]; [|discriminate].
  destruct body as [| | | | |entries]; try discriminate.
  cbn [dict_get bind ret Monad_either].
  fold (usage_of entries).
  destruct (usage_of entries) as [| | | | |usage] eqn:Husage;
    try discriminate.
  cbn [keyword_arguments dict_get bind ret Monad_either].
  destruct (RerankBilledUnits usage) as [e|billed] eqn:Hbilled;
    [discriminate|].
  fold (prompt_tokens_of usage). fold (total_tokens_of usage).
  unfold subtract.
  destruct (as_int (total_tokens_of usage)) as [t|] eqn:Ht; [|discriminate].
  destruct (as_int (prompt_tokens_of usage)) as [p|] eqn:Hp; [|discriminate].
  cbn [bind ret Monad_either].
  destruct (RerankTokens _ _) as [e|tokens] eqn:Htokens; [discriminate|].
  destruct (RerankResponseMeta billed tokens) as [e|meta] eqn:Hmeta;
    [discriminate|].
  destruct (lookup "results" entries) as [results|] eqn:Hresults;
    cbn [get_default]; [|discriminate].
  intros Hresponse.
  exists entries, usage, p, t, billed, tokens, meta, results.
  repeat (split; [reflexivity || assumption|]).
  destruct results; try discriminate; (split; [discriminate | exact Hresponse]).
Qed.

(** X13. A body that cannot be used is refused before any model is
    built: a body that does not parse raises [InfinityError] with the text
    and the status code of the response; a parsed body that is not a dict
    raises [AttributeError]; a dict whose ["usage"] is not a dict (a
    number, a string, a list, [null]) raises [TypeError], whether or not
    it has results. *)
Theorem rerank_refuses_unusable_bodies
  (raw_response : HttpxResponse) (uuid4 : string) :
  (json raw_response = None ->
   transform_rerank_response raw_response uuid4
     = inl (InfinityError (text raw_response) (status_code raw_response)))
  /\ (forall body,
        json raw_response = Some body ->
        is_dict body = false ->
        transform_rerank_response raw_response uuid4 = inl AttributeError)
  /\ (forall entries,
        json raw_response = Some (JDict entries) ->
        is_dict (usage_of entries) = false ->
        transform_rerank_response raw_response uuid4 = inl TypeError).
Proof.
  unfold transform_rerank_response. split; [|split].
  - now intros ->.
  - intros body -> Hbody. destruct body; try reflexivity. discriminate.
  - intros entries -> Husage.
    cbn [dict_get bind ret Monad_either]. fold (usage_of entries).
    destruct (usage_of entries); try reflexivity. discriminate.
Qed.

(** X14. A response is returned only for a body that is a dict with
    results that are not [null], and it is what [RerankResponse] makes of
    those very results (an empty list included) and of the id of the
    body, or of the fresh UUID when the body has no id or a falsy one. *)
Theorem rerank_response_carries_the_results_of_the_body
  (raw_response : HttpxResponse) (uuid4 : string) (response : Response) :
  transform_rerank_response raw_response uuid4 = inr response ->
  exists entries results meta,
    json raw_response = Some (JDict entries)
    /\ lookup "results" entries = Some results
    /\ results <> JNull
    /\ RerankResponse
         (match lookup "id" entries with
          | Some id => if truthy id then id else JStr uuid4
          | None => JStr uuid4
          end)
         results meta = inr response.
Proof.
  intros Hreturned.
  destruct (transform_returned _ _ _ Hreturned)
    as (entries & usage & p & t & billed & tokens & meta & results
        & Hjson & _ & _ & _ & _ & _ & _ & Hresults & Hnull & Hresponse).
  exists entries, results, meta.
  repeat (split; [assumption|]).
  unfold or_else in Hresponse.
  destruct (lookup "id" entries) as [id|]; exact Hresponse.
Qed.

(** X15. Token accounting of a returned response: [RerankTokens] received
    the prompt count as input and total minus prompt as output, absent
    counters counting as zero.  So input plus output is the total; with no
    usage at all both are zero; and a usage without [total_tokens] gives a
    negative output, minus the prompt count. *)
Theorem rerank_tokens_add_up_to_the_total
  (raw_response : HttpxResponse) (uuid4 : string) (response : Response) :
  transform_rerank_response raw_response uuid4 = inr response ->
  exists entries usage p output tokens,
    json raw_response = Some (JDict entries)
    /\ usage_of entries = JDict usage
    /\ as_int (prompt_tokens_of usage) = Some p
    /\ RerankTokens (prompt_tokens_of usage) (JInt output) = inr tokens
    /\ as_int (total_tokens_of usage) = Some (p + output)
    /\ (lookup "usage" entries = None -> p = 0 /\ output = 0)
    /\ (lookup "total_tokens" usage = None -> output = - p).
Proof.
  intros Hreturned.
  destruct (transform_returned _ _ _ Hreturned)
    as (entries & usage & p & t & billed & tokens & meta & results
        & Hjson & Husage & _ & Hp & Ht & Htokens & _).
  exists entries, usage, p, (t - p), tokens.
  repeat (split; [assumption|]).
  split; [rewrite Ht; f_equal; lia|].
  split.
  - intros Hnone. unfold usage_of in Husage. rewrite Hnone in Husage.
    cbn [get_default] in Husage. injection Husage as <-.
    cbn in Hp, Ht. injection Hp as <-. injection Ht as <-. split; reflexivity.
  - intros Hnone. unfold total_tokens_of in Ht. rewrite Hnone in Ht.
    cbn in Ht. injection Ht as <-. lia.
Qed.

(** X16. A body without results (the key is missing or [null]) never
    yields a response; the [ValueError] that names the body is raised
    after the usage has been turned into the meta models, so it is the
    outcome when that part goes through. *)
Theorem rerank_without_results_is_refused_last
  (raw_response : HttpxResponse) (uuid4 : string)
  (entries : list (string * Json)) :
  json raw_response = Some (JDict entries) ->
  get_default (lookup "results" entries) JNull = JNull ->
  (forall response,
      transform_rerank_response raw_response uuid4 <> inr response)
  /\ (forall usage p t billed tokens meta,
        usage_of entries = JDict usage ->
        RerankBilledUnits usage = inr billed ->
        as_int (prompt_tokens_of usage) = Some p ->
        as_int (total_tokens_of usage) = Some t ->
        RerankTokens (prompt_tokens_of usage) (JInt (t - p)) = inr tokens ->
        RerankResponseMeta billed tokens = inr meta ->
        transform_rerank_response raw_response uuid4
          = inl (ValueError
                   ("No results found in the response="
                      ++ repr (JDict entries)))).
Proof.
  intros Hjson Hnull. split.
  - intros response Hreturned.
    destruct (transform_returned _ _ _ Hreturned)
      as (entries' & usage & p & t & billed & tokens & meta & results
          & Hjson' & _ & _ & _ & _ & _ & _ & Hresults & Hnot & _).
    rewrite Hjson in Hjson'. injection Hjson' as <-.
    rewrite Hresults in Hnull. cbn [get_default] in Hnull. contradiction.
  - intros usage p t billed tokens meta Husage Hbilled Hp Ht Htokens Hmeta.
    unfold transform_rerank_response. rewrite Hjson.
    cbn [dict_get bind ret Monad_either]. fold (usage_of entries).
    rewrite Husage. cbn [keyword_arguments dict_get bind ret Monad_either].
    rewrite Hbilled.
    fold (prompt_tokens_of usage). fold (total_tokens_of usage).
    unfold subtract. rewrite Ht, Hp. cbn [bind ret Monad_either].
    rewrite Htokens, Hmeta, Hnull. reflexivity.
Qed.

(** X17. A token counter that is not a number (a string, [null], a list,
    a dict) makes the subtraction raise [TypeError], once
    [RerankBilledUnits] has accepted the usage. *)
Theorem rerank_token_counters_must_be_numbers
  (raw_response : HttpxResponse) (uuid4 : string)
  (entries usage : list (string * Json)) (billed : BilledUnits) :
  json raw_response = Some (JDict entries) ->
  usage_of entries = JDict usage ->
  RerankBilledUnits usage = inr billed ->
  as_int (prompt_tokens_of usage) = None
  \/ as_int (total_tokens_of usage) = None ->
  transform_rerank_response raw_response uuid4 = inl TypeError.
Proof.
  intros Hjson Husage Hbilled Hbad.
  unfold transform_rerank_response. rewrite Hjson.
  cbn [dict_get bind ret Monad_either]. fold (usage_of entries).
  rewrite Husage. cbn [keyword_arguments dict_get bind ret Monad_either].
  rewrite Hbilled.
  fold (prompt_tokens_of usage). fold (total_tokens_of usage).
  unfold subtract.
  destruct Hbad as [-> | ->]; [destruct (as_int _)|]; reflexivity.
Qed.

End RerankFacts.

(** The theorem on the sample response of the server. *)
Lemma rerank_response_carries_the_results_of_the_body_witness :
  exists entries results meta,
    InfinityRerank.json InfinityRerank.sample_response
      = Some (InfinityRerank.JDict entries)
    /\ InfinityRerank.lookup "results" entries = Some results
    /\ results <> InfinityRerank.JNull
    /\ @InfinityRerank.RerankResponse InfinityRerank.plain_models
         (match InfinityRerank.lookup "id" entries with
          | Some id =>
              if InfinityRerank.truthy id then id
              else InfinityRerank.JStr "uuid"
          | None => InfinityRerank.JStr "uuid"
          end)
         results meta
       = @InfinityRerank.transform_rerank_response InfinityRerank.plain_models
           InfinityRerank.sample_response "uuid".
Proof.
  apply (@rerank_response_carries_the_results_of_the_body
           InfinityRerank.plain_models InfinityRerank.sample_response "uuid").
  reflexivity.
Defined.

(** The theorem on a response whose usage has no [total_tokens]. *)
Lemma rerank_tokens_add_up_to_the_total_witness :
  exists entries usage p output tokens,
    InfinityRerank.json InfinityRerank.response_without_total
      = Some (InfinityRerank.JDict entries)
    /\ InfinityRerank.usage_of entries = InfinityRerank.JDict usage
    /\ InfinityRerank.as_int (InfinityRerank.prompt_tokens_of usage) = Some p
    /\ @InfinityRerank.RerankTokens InfinityRerank.plain_models
         (InfinityRerank.prompt_tokens_of usage) (InfinityRerank.JInt output)
       = inr tokens
    /\ InfinityRerank.as_int (InfinityRerank.total_tokens_of usage)
       = Some (p + output)
    /\ (InfinityRerank.lookup "usage" entries = None -> p = 0 /\ output = 0)
    /\ (InfinityRerank.lookup "total_tokens" usage = None -> output = - p).
Proof.
  eapply (@rerank_tokens_add_up_to_the_total InfinityRerank.plain_models
            InfinityRerank.response_without_total "uuid").
  reflexivity.
Defined.

(** The theorem on a body that has an id and nothing else. *)
Lemma rerank_without_results_is_refused_last_witness :
  (forall response,
      @InfinityRerank.transform_rerank_response InfinityRerank.plain_models
        InfinityRerank.response_without_results "uuid" <> inr response)
  /\ (forall usage p t billed tokens meta,
        InfinityRerank.usage_of
          [("id"%string, InfinityRerank.JStr "infinity-2")]
          = InfinityRerank.JDict usage ->
        @InfinityRerank.RerankBilledUnits InfinityRerank.plain_models usage
          = inr billed ->
        InfinityRerank.as_int (InfinityRerank.prompt_tokens_of usage)
          = Some p ->
        InfinityRerank.as_int (InfinityRerank.total_tokens_of usage)
          = Some t ->
        @InfinityRerank.RerankTokens InfinityRerank.plain_models
          (InfinityRerank.prompt_tokens_of usage) (InfinityRerank.JInt (t - p))
          = inr tokens ->
        @InfinityRerank.RerankResponseMeta InfinityRerank.plain_models
          billed tokens = inr meta ->
        @InfinityRerank.transform_rerank_response InfinityRerank.plain_models
          InfinityRerank.response_without_results "uuid"
          = inl (InfinityRerank.ValueError
                   ("No results found in the response="
                      ++ @InfinityRerank.repr InfinityRerank.plain_models
                           (InfinityRerank.JDict
                              [("id"%string,
                                InfinityRerank.JStr "infinity-2")])))).
Proof.
  apply (@rerank_without_results_is_refused_last InfinityRerank.plain_models
           InfinityRerank.response_without_results "uuid"
           [("id"%string, InfinityRerank.JStr "infinity-2")]).
  - reflexivity.
  - reflexivity.
Defined.

(** The theorem on a body whose prompt counter is the string ["12"]. *)
Lemma rerank_token_counters_must_be_numbers_witness :
  @InfinityRerank.transform_rerank_response InfinityRerank.plain_models
    InfinityRerank.response_with_text_counter "uuid"
  = inl InfinityRerank.TypeError.
Proof.
  apply (@rerank_token_counters_must_be_numbers InfinityRerank.plain_models
           InfinityRerank.response_with_text_counter "uuid"
           [("results"%string, InfinityRerank.JList []);
            ("usage"%string,
             InfinityRerank.JDict
               [("prompt_tokens"%string, InfinityRerank.JStr "12");
                ("total_tokens"%string, InfinityRerank.JInt 12)])]
           [("prompt_tokens"%string, InfinityRerank.JStr "12");
            ("total_tokens"%string, InfinityRerank.JInt 12)]
           [("prompt_tokens"%string, InfinityRerank.JStr "12");
            ("total_tokens"%string, InfinityRerank.JInt 12)]).
  - reflexivity.
  - reflexivity.
  - reflexivity.
  - left. reflexivity.
Defined.

(** X18. A negative [max_errors] turns the slice around: the builder
    skips the [- max_errors] oldest events and returns a line for each of
    the others, none when the store holds no more than that; the store
    is left as it was. *)
Theorem negative_max_errors_skips_the_oldest (max_errors : Z) (w : World) :
  max_errors <= -1 ->
  _build_error_summaries max_errors w
    = (Returned
         (map summary_line (skipn (Z.to_nat (- max_errors)) (events_of w))),
       w)
  /\ (Z.of_nat (List.length (events_of w)) <= - max_errors ->
      fst (_build_error_summaries max_errors w) = Returned []).
Proof.
  intros Hneg.
  assert (Hslice : slice_from (- max_errors) (events_of w)
                   = skipn (Z.to_nat (- max_errors)) (events_of w)).
  { unfold slice_from. cbv zeta.
    destruct (Z.ltb_spec (- max_errors) 0) as [Hlt|_]; [lia|].
    destruct (Z.le_gt_cases (- max_errors)
                (Z.of_nat (List.length (events_of w)))) as [Hin|Hout].
    - now rewrite Z.min_l by lia.
    - rewrite Z.min_r by lia. rewrite Nat2Z.id.
      rewrite skipn_all. symmetry. apply skipn_all2. lia. }
  rewrite run_build_error_summaries, Hslice.
  split; [reflexivity|].
  intros Hshort. cbn [fst]. now rewrite skipn_all2 by lia.
Qed.

(** The theorem for [max_errors = -6] on a store of seven events. *)
Lemma negative_max_errors_skips_the_oldest_witness :
  _build_error_summaries (-6)
    (with_failure_events (fresh_world "k" (config 60 10)) seven_events)
    = (Returned
         (map summary_line
            (skipn (Z.to_nat (- -6))
               (events_of
                  (with_failure_events (fresh_world "k" (config 60 10))
                     seven_events)))),
       with_failure_events (fresh_world "k" (config 60 10)) seven_events)
  /\ (Z.of_nat
        (List.length
           (events_of
              (with_failure_events (fresh_world "k" (config 60 10))
                 seven_events))) <= - -6 ->
      fst (_build_error_summaries (-6)
             (with_failure_events (fresh_world "k" (config 60 10))
                seven_events)) = Returned []).
Proof.
  apply (negative_max_errors_skips_the_oldest (-6)
           (with_failure_events (fresh_world "k" (config 60 10)) seven_events)).
  lia.
Defined.
